(** * Musson furnace calculator: heat loss, burn curve and furnace selection

    A shallow embedding of [app.py].  Python numbers are read as real
    numbers ([R]); an operation that can raise in Python ([/] on a zero
    divisor, [d[k]] on a missing key, [math.sqrt] on a negative number,
    [next] / [max] on an exhausted iterator) returns in the error monad
    [result], so that "does not raise" is a statement about the model.

    The three engineering functions are embedded one to one.  The
    Streamlit script below them is embedded as [run], a function from the
    values read from the widgets to the values computed for the page. *)

From Stdlib Require Import Reals Lra Lia ZArith List String Bool.
Import ListNotations.
Open Scope string_scope.
Open Scope R_scope.

(** ** The fragment of Python the program uses *)

Module Py.

Inductive exn : Set :=
| ZeroDivisionError
| KeyError
| ValueError
| StopIteration.

Inductive result (A : Type) : Type :=
| Ret (a : A)
| Raise (e : exn).

Arguments Ret {A} a.
Arguments Raise {A} e.

Definition bind {A B : Type} (c : result A) (k : A -> result B) : result B :=
  match c with
  | Ret a => k a
  | Raise e => Raise e
  end.

(** [for x in xs: acc.append(f(x))], stopping at the first exception. *)
Fixpoint mapM {A B : Type} (f : A -> result B) (xs : list A) : result (list B) :=
  match xs with
  | [] => Ret []
  | x :: xs' =>
      bind (f x) (fun y => bind (mapM f xs') (fun ys => Ret (y :: ys)))
  end.

(** [for x in xs: st = body(st, x)], stopping at the first exception. *)
Fixpoint foldM {A S : Type} (body : S -> A -> result S) (xs : list A) (st : S)
  : result S :=
  match xs with
  | [] => Ret st
  | x :: xs' => bind (body st x) (foldM body xs')
  end.

(** Comparisons of numbers, as booleans. *)
Definition leb (x y : R) : bool := if Rle_dec x y then true else false.
Definition ltb (x y : R) : bool := if Rlt_dec x y then true else false.
Definition geb (x y : R) : bool := leb y x.
Definition gtb (x y : R) : bool := ltb y x.

(** [x / y] raises [ZeroDivisionError] on a zero divisor. *)
Definition div (x y : R) : result R :=
  if Req_dec_T y 0 then Raise ZeroDivisionError else Ret (x / y).

(** [math.sqrt(x)] raises [ValueError] on a negative argument. *)
Definition math_sqrt (x : R) : result R :=
  if Rlt_dec x 0 then Raise ValueError else Ret (sqrt x).

(** [int(x)] truncates toward zero. *)
Definition int (x : R) : Z := if Rle_dec 0 x then Zfloor x else Zceil x.

(** [math.ceil(x)]. *)
Definition math_ceil (x : R) : Z := Zceil x.

(** [range(n)]: 0, 1, ..., n-1, empty when [n <= 0]. *)
Definition range (n : Z) : list Z := map Z.of_nat (seq 0 (Z.to_nat n)).

(** [max(0, p)]: the builtin keeps its first argument unless a later one
    is strictly greater. *)
Definition max0 (p : R) : R := if Rlt_dec 0 p then p else 0.

(** [max(xs, key=key)]: the first element whose key is greatest;
    [ValueError] on an empty sequence. *)
Fixpoint max_from {A : Type} (key : A -> R) (best : A) (xs : list A) : A :=
  match xs with
  | [] => best
  | x :: xs' => max_from key (if gtb (key x) (key best) then x else best) xs'
  end.

Definition max_by {A : Type} (key : A -> R) (xs : list A) : result A :=
  match xs with
  | [] => Raise ValueError
  | x :: xs' => Ret (max_from key x xs')
  end.

(** [next(x for x in xs if p(x))]: [StopIteration] when there is none. *)
Definition next_such {A : Type} (p : A -> bool) (xs : list A) : result A :=
  match find p xs with
  | Some x => Ret x
  | None => Raise StopIteration
  end.

(** A dict with string keys, in insertion order. *)
Definition dict (V : Type) : Type := list (string * V).

Fixpoint lookup {V : Type} (d : dict V) (k : string) : option V :=
  match d with
  | [] => None
  | (k', v) :: d' => if String.eqb k k' then Some v else lookup d' k
  end.

(** [d[k]] raises [KeyError] on a missing key. *)
Definition getitem {V : Type} (d : dict V) (k : string) : result V :=
  match lookup d k with
  | Some v => Ret v
  | None => Raise KeyError
  end.

(** [d.get(k, default)]. *)
Definition get {V : Type} (d : dict V) (k : string) (default : V) : V :=
  match lookup d k with
  | Some v => v
  | None => default
  end.

End Py.

Import Py.

Declare Scope py_scope.
Delimit Scope py_scope with py.
Notation "x <- c ;; k" := (bind c (fun x => k))
  (at level 61, c at next level, right associativity) : py_scope.
Notation "' pat <- c ;; k" := (bind c (fun x => match x with pat => k end))
  (at level 61, pat pattern, c at next level, right associativity) : py_scope.
Open Scope py_scope.

(** ** Constants and engineering data *)

(** Thermal conductivity of the wall materials, W/(m K). *)
Definition MATERIALS : dict R :=
  [ ("Кирпич", 0.81);
    ("Газоблок", 0.12);
    ("Дерево (брус)", 0.18);
    ("Сэндвич-панель", 0.04);
    ("Минеральная вата", 0.045);
    ("OSB", 0.13);
    ("Профнастил (сталь)", 58.0) ].

(** Surface resistances, (m2 K)/W. *)
Definition R_SI : R := 0.13.
Definition R_SE : R := 0.04.

Record FurnaceParams : Type := mkFurnace {
  volume_l : R;
  duct_count : Z;
  duct_diameter_mm : Z
}.

Definition MUSSON_MODELS : dict FurnaceParams :=
  [ ("Муссон 300",  mkFurnace 77  2 133);
    ("Муссон 600",  mkFurnace 125 3 133);
    ("Муссон 1000", mkFurnace 200 3 133);
    ("Муссон 1500", mkFurnace 311 4 133);
    ("Муссон 2000", mkFurnace 467 4 159) ].

Record Wood : Type := mkWood {
  density : R;
  q_mj_kg : R
}.

Definition WOOD_TYPES : dict Wood :=
  [ ("Хвойные (сосна, ель)", mkWood 350 17.0);
    ("Берёза",               mkWood 450 18.0);
    ("Дуб",                  mkWood 550 19.5) ].

(** The wall kind that takes the layered branch. *)
Definition COMPOSITE : string := "Минеральная вата с обшивкой".

(** ** Engineering computations *)

Definition calculate_wall_r_value
    (material_type : string) (wall_thickness_m min_wool_thickness_m : R)
  : result R :=
  r_layers <-
    (if String.eqb material_type COMPOSITE then
       lam_osb <- getitem MATERIALS "OSB" ;;
       r_osb <- div 0.009 lam_osb ;;
       lam_wool <- getitem MATERIALS "Минеральная вата" ;;
       r_wool <- div min_wool_thickness_m lam_wool ;;
       lam_steel <- getitem MATERIALS "Профнастил (сталь)" ;;
       r_steel <- div 0.0005 lam_steel ;;
       Ret (r_osb + r_wool + r_steel)
     else
       let lambda_wall := get MATERIALS material_type 0.81 in
       div wall_thickness_m lambda_wall) ;;
  Ret (R_SI + r_layers + R_SE).

Definition calculate_heat_loss
    (area height wall_r_value floor_r_value ceiling_r_value t_in t_out : R)
  : result R :=
  let delta_t := t_in - t_out in
  if leb delta_t 0 then Ret 0
  else
    s1 <- math_sqrt area ;;
    s2 <- math_sqrt area ;;
    let perimeter := 2 * (s1 + s2) in
    let wall_area := perimeter * height in
    let floor_area := area in
    let ceiling_area := area in
    q_walls <- div (wall_area * delta_t) wall_r_value ;;
    q_floor <- div (floor_area * delta_t) floor_r_value ;;
    q_ceiling <- div (ceiling_area * delta_t) ceiling_r_value ;;
    let total_q_w := q_walls + q_floor + q_ceiling in
    div total_q_w 1000.

(** The body of the sampling loop: one power sample. *)
Definition power_sample (peak_power_kw burn_hours t : R) : result R :=
  q <- div t burn_hours ;;
  let power := peak_power_kw * (1 - q) in
  Ret (max0 power).

Definition get_furnace_power_curve
    (volume_l fill_fraction : R) (wood_type : string) (efficiency burn_hours : R)
  : result (list R * list R * R) :=
  vol_m3 <- div volume_l 1000 ;;
  let filled_vol_m3 := vol_m3 * fill_fraction in
  w1 <- getitem WOOD_TYPES wood_type ;;
  let m_wood := filled_vol_m3 * density w1 in
  w2 <- getitem WOOD_TYPES wood_type ;;
  let q_fuel_mj := m_wood * q_mj_kg w2 in
  e <- div q_fuel_mj 3.6 ;;
  let total_kwh := e * efficiency in
  avg_power_kw <- (if gtb burn_hours 0 then div total_kwh burn_hours else Ret 0) ;;
  let peak_power_kw := avg_power_kw * 2 in
  let time_points :=
    map (fun i => IZR i * 0.5) (range (int (burn_hours * 2) + 1)) in
  power_points <- mapM (power_sample peak_power_kw burn_hours) time_points ;;
  Ret (time_points, power_points, total_kwh).

(** ** The script: from the widget values to the page values *)

(** The values the sidebar widgets hand to the computation
    ([fill_fraction] and [efficiency] are already divided by 100, as the
    script does on the line that reads them). *)
Record Inputs : Type := mkInputs {
  area : R;
  height : R;
  material_type : string;
  thickness_cm : R;
  t_in : R;
  t_out : R;
  wood_type : string;
  fill_fraction : R;
  efficiency : R;
  burn_hours : R
}.

(** One entry of [all_models_data]. *)
Record ModelData : Type := mkData {
  model : string;
  time : list R;
  power : list R;
  avg_power : R
}.

(** The variables the selection loop updates. *)
Record LoopState : Type := mkLoop {
  all_models_data : list ModelData;
  recommended_model : option string;
  best_model_avg_power : R
}.

Definition loop_init : LoopState := mkLoop [] None 0.

(** Truth value of [recommended_model]: [None] and the empty string are
    false. *)
Definition truthy (o : option string) : bool :=
  match o with
  | Some s => negb (String.eqb s "")
  | None => false
  end.

(** The body of [for model_name, params in MUSSON_MODELS.items()]. *)
Definition loop_body (inp : Inputs) (required_power_with_margin : R)
    (st : LoopState) (item : string * FurnaceParams) : result LoopState :=
  let '(model_name, params) := item in
  '(time_pts, power_pts, total_kwh) <-
    get_furnace_power_curve (volume_l params) (fill_fraction inp)
      (wood_type inp) (efficiency inp) (burn_hours inp) ;;
  avg_power <-
    (if gtb (burn_hours inp) 0 then div total_kwh (burn_hours inp) else Ret 0) ;;
  let data :=
    (all_models_data st ++ [mkData model_name time_pts power_pts avg_power])%list in
  if geb avg_power required_power_with_margin
     && gtb avg_power (best_model_avg_power st)
  then Ret (mkLoop data (Some model_name) avg_power)
  else Ret (mkLoop data (recommended_model st) (best_model_avg_power st)).

(** The cascade suggestion: the number of furnaces and the model, which
    the script then formats into one string. *)
Definition cascade_logic (st : LoopState) (heat_loss_kw required_power_with_margin : R)
  : result (option (Z * string)) :=
  if negb (truthy (recommended_model st)) && gtb heat_loss_kw 0 then
    most_powerful <- max_by avg_power (all_models_data st) ;;
    if gtb (avg_power most_powerful) 0 then
      q <- div required_power_with_margin (avg_power most_powerful) ;;
      let num_furnaces := math_ceil q in
      if (1 <? num_furnaces)%Z
      then Ret (Some (num_furnaces, model most_powerful))
      else Ret None
    else Ret None
  else Ret None.

(** The walk over [zip(time, power)] that finds the refuel time. *)
Fixpoint refuel_walk (required_power_with_margin : R) (samples : list (R * R))
    (refuel_time : R) : R :=
  match samples with
  | [] => refuel_time
  | (t, p) :: rest =>
      if geb p required_power_with_margin
      then refuel_walk required_power_with_margin rest t
      else refuel_time
  end.

Definition refuel_logic (st : LoopState) (required_power_with_margin : R)
  : result (option R) :=
  if truthy (recommended_model st) then
    rec_model_data <-
      next_such
        (fun item =>
           match recommended_model st with
           | Some m => String.eqb (model item) m
           | None => false
           end)
        (all_models_data st) ;;
    Ret (Some (refuel_walk required_power_with_margin
                 (combine (time rec_model_data) (power rec_model_data)) 0))
  else Ret None.

(** What the page shows. [refuel_time] is [None] when the script leaves the
    variable unassigned (no recommended model). *)
Record Outputs : Type := mkOutputs {
  wall_r_val : R;
  heat_loss_kw : R;
  required_power_with_margin : R;
  selection : LoopState;
  cascade_option : option (Z * string);
  refuel_time : option R
}.

Definition run (inp : Inputs) : result Outputs :=
  wall_thickness_m <- div (thickness_cm inp) 100 ;;
  min_wool_thickness_m <-
    (if String.eqb (material_type inp) COMPOSITE
     then div (thickness_cm inp) 100
     else Ret 0.05) ;;
  wall_r <- calculate_wall_r_value (material_type inp) wall_thickness_m
              min_wool_thickness_m ;;
  let floor_r_val := 2.5 in
  let ceiling_r_val := 3.5 in
  heat_loss <- calculate_heat_loss (area inp) (height inp) wall_r floor_r_val
                 ceiling_r_val (t_in inp) (t_out inp) ;;
  let required := heat_loss * 1.2 in
  st <- foldM (loop_body inp required) MUSSON_MODELS loop_init ;;
  cascade <- cascade_logic st heat_loss required ;;
  refuel <- refuel_logic st required ;;
  Ret (mkOutputs wall_r heat_loss required st cascade refuel).


(** ** Predicates that describe the selection loop *)

(** [d] is the entry the loop body appends for the catalog item [item]. *)
Definition data_of (inp : Inputs) (item : string * FurnaceParams) (d : ModelData)
  : Prop :=
  model d = fst item
  /\ exists total_kwh,
       get_furnace_power_curve (volume_l (snd item)) (fill_fraction inp)
         (wood_type inp) (efficiency inp) (burn_hours inp)
       = Ret (time d, power d, total_kwh)
       /\ (if gtb (burn_hours inp) 0 then div total_kwh (burn_hours inp) else Ret 0)
          = Ret (avg_power d).

(** The invariant of the selection loop for the required load [req]. *)
Definition selection_inv (req : R) (st : LoopState) : Prop :=
  match recommended_model st with
  | None =>
      best_model_avg_power st = 0
      /\ forall d, In d (all_models_data st) ->
                   req <= avg_power d -> avg_power d <= 0
  | Some m =>
      exists l1 d l2,
        all_models_data st = (l1 ++ d :: l2)%list
        /\ model d = m
        /\ avg_power d = best_model_avg_power st
        /\ 0 < avg_power d
        /\ req <= avg_power d
        /\ (forall d', In d' l1 -> req <= avg_power d' -> avg_power d' < avg_power d)
        /\ (forall d', In d' l2 -> req <= avg_power d' -> avg_power d' <= avg_power d)
  end.

(** The sample times of a burn of [bh] hours. *)
Definition sample_times (bh : R) : list R :=
  map (fun i => IZR i * 0.5) (range (int (bh * 2) + 1)).

(** The average power, per litre of chamber, of a burn of wood [w]. *)
Definition unit_power (inp : Inputs) (w : Wood) : R :=
  1 / 1000 * fill_fraction inp * density w * q_mj_kg w / 3.6 * efficiency inp
  / burn_hours inp.

(** The closed form of the entry the loop appends for a catalog item, for
    a known wood [w] and a positive burn duration. *)
Definition model_entry (inp : Inputs) (w : Wood) (item : string * FurnaceParams)
  : ModelData :=
  let total_kwh :=
    volume_l (snd item) / 1000 * fill_fraction inp * density w * q_mj_kg w / 3.6
    * efficiency inp in
  mkData (fst item)
    (sample_times (burn_hours inp))
    (map (fun t => max0 (total_kwh / burn_hours inp * 2 * (1 - t / burn_hours inp)))
       (sample_times (burn_hours inp)))
    (total_kwh / burn_hours inp).

(** The first concrete scenario of the specification: a 100 m2 room,
    2.5 m high, brick walls 40 cm thick, 22 C inside, -20 C outside,
    softwood, 80 % fill, 85 % efficiency, an 8 h burn. *)
Definition scenario : Inputs :=
  mkInputs 100 2.5 "Кирпич" 40 22 (-20) "Хвойные (сосна, ель)" 0.8 0.85 8.

(** A cold case inside the widget ranges: the same room 6 m high, brick
    walls 5 cm thick, 70 C inside, -50 C outside. *)
Definition cold_scenario : Inputs :=
  mkInputs 100 6 "Кирпич" 5 70 (-50) "Хвойные (сосна, ель)" 0.8 0.85 8.

(** A case where no heating is needed: 15 C inside and outside. *)
Definition warm_scenario : Inputs :=
  mkInputs 100 2.5 "Кирпич" 40 15 15 "Хвойные (сосна, ель)" 0.8 0.85 8.

(** The values the sidebar widgets can produce: the ranges, steps and
    option lists of the [number_input], [slider], [select_slider] and
    [selectbox] calls of the script. *)
Definition widget_inputs (inp : Inputs) : Prop :=
  4 <= area inp <= 2000
  /\ 1.6 <= height inp <= 6.0
  /\ In (material_type inp)
        ["Кирпич"; "Газоблок"; "Дерево (брус)"; "Сэндвич-панель";
         "Минеральная вата с обшивкой"]
  /\ (if String.eqb (material_type inp) COMPOSITE
      then In (thickness_cm inp) [5; 10; 15; 20]
      else exists z : Z, (5 <= z <= 100)%Z /\ thickness_cm inp = IZR z)
  /\ (exists z : Z, (15 <= z <= 70)%Z /\ t_in inp = IZR z)
  /\ (exists z : Z, (-50 <= z <= 10)%Z /\ t_out inp = IZR z)
  /\ In (wood_type inp) (map fst WOOD_TYPES)
  /\ (exists z : Z, (50 <= z <= 100)%Z /\ fill_fraction inp = IZR z / 100)
  /\ (exists z : Z, (70 <= z <= 95)%Z /\ efficiency inp = IZR z / 100)
  /\ In (burn_hours inp) [2; 4; 6; 8; 12; 18; 24].

(** The same widget values with another burn duration selected. *)
Definition with_burn_hours (inp : Inputs) (bh : R) : Inputs :=
  mkInputs (area inp) (height inp) (material_type inp) (thickness_cm inp)
    (t_in inp) (t_out inp) (wood_type inp) (fill_fraction inp) (efficiency inp) bh.

(** ** Facts about the Python fragment *)

Lemma leb_true_iff (x y : R) : leb x y = true <-> x <= y.
Proof. unfold leb. destruct (Rle_dec x y); split; intros; try easy. Qed.

Lemma leb_false_iff (x y : R) : leb x y = false <-> y < x.
Proof. unfold leb. destruct (Rle_dec x y); split; intros; try easy; lra. Qed.

Lemma ltb_true_iff (x y : R) : ltb x y = true <-> x < y.
Proof. unfold ltb. destruct (Rlt_dec x y); split; intros; try easy. Qed.

Lemma ltb_false_iff (x y : R) : ltb x y = false <-> y <= x.
Proof. unfold ltb. destruct (Rlt_dec x y); split; intros; try easy; lra. Qed.

Lemma geb_true_iff (x y : R) : geb x y = true <-> y <= x.
Proof. apply leb_true_iff. Qed.

Lemma geb_false_iff (x y : R) : geb x y = false <-> x < y.
Proof. apply leb_false_iff. Qed.

Lemma gtb_true_iff (x y : R) : gtb x y = true <-> y < x.
Proof. apply ltb_true_iff. Qed.

Lemma gtb_false_iff (x y : R) : gtb x y = false <-> x <= y.
Proof. apply ltb_false_iff. Qed.

Lemma div_ok (x y : R) : y <> 0 -> div x y = Ret (x / y).
Proof. intros Hy. unfold div. destruct (Req_dec_T y 0); [contradiction | reflexivity]. Qed.

Lemma div_by_zero (x : R) : div x 0 = Raise ZeroDivisionError.
Proof. unfold div. destruct (Req_dec_T 0 0); [reflexivity | contradiction]. Qed.

Lemma div_Ret_inv (x y q : R) : div x y = Ret q -> y <> 0 /\ q = x / y.
Proof.
  unfold div. destruct (Req_dec_T y 0); intros H; [discriminate |].
  inversion H. auto.
Qed.

Lemma bind_Ret_inv {A B : Type} (c : result A) (k : A -> result B) (b : B) :
  bind c k = Ret b -> exists a, c = Ret a /\ k a = Ret b.
Proof. destruct c as [a | e]; simpl; intros H; [eauto | discriminate]. Qed.

Lemma math_sqrt_ok (x : R) : 0 <= x -> math_sqrt x = Ret (sqrt x).
Proof. intros Hx. unfold math_sqrt. destruct (Rlt_dec x 0); [lra | reflexivity]. Qed.

Lemma max0_Rmax (p : R) : max0 p = Rmax 0 p.
Proof.
  unfold max0. destruct (Rlt_dec 0 p).
  - symmetry. apply Rmax_right. lra.
  - symmetry. apply Rmax_left. lra.
Qed.

Lemma max0_nonneg (p : R) : 0 <= max0 p.
Proof. unfold max0. destruct (Rlt_dec 0 p); lra. Qed.

Lemma max0_of_nonneg (p : R) : 0 <= p -> max0 p = p.
Proof. intros Hp. unfold max0. destruct (Rlt_dec 0 p); lra. Qed.

Lemma int_IZR (k : Z) : int (IZR k) = k.
Proof.
  unfold int, Zceil. destruct (Rle_dec 0 (IZR k)).
  - apply ZfloorZ.
  - rewrite ZfloorNZ. lia.
Qed.

Lemma int_nonneg (x : R) : 0 <= x -> (0 <= int x)%Z.
Proof.
  intros Hx. unfold int. destruct (Rle_dec 0 x); [| contradiction].
  apply Zfloor_lub. simpl. exact Hx.
Qed.

Lemma range_length (n : Z) : List.length (range n) = Z.to_nat n.
Proof. unfold range. rewrite length_map, length_seq. reflexivity. Qed.

Lemma range_succ (n : Z) : (0 <= n)%Z -> range (n + 1) = (range n ++ [n])%list.
Proof.
  intros Hn. unfold range.
  replace (Z.to_nat (n + 1)) with (S (Z.to_nat n)) by lia.
  rewrite seq_S, map_app. simpl. rewrite Z2Nat.id by lia. reflexivity.
Qed.

Lemma range_pos_cons (n : Z) :
  (0 < n)%Z -> range n = 0%Z :: map Z.of_nat (seq 1 (Z.to_nat n - 1)).
Proof.
  intros Hn. unfold range.
  destruct (Z.to_nat n) as [| m] eqn:E; [lia |].
  simpl. rewrite Nat.sub_0_r. reflexivity.
Qed.

(** ** The tables *)

Lemma MATERIALS_positive (m : string) : 0 < get MATERIALS m 0.81.
Proof.
  unfold get, MATERIALS. cbn [lookup].
  repeat match goal with
         | |- context [String.eqb ?a ?b] => destruct (String.eqb a b)
         end; lra.
Qed.

Lemma WOOD_TYPES_positive (name : string) (w : Wood) :
  lookup WOOD_TYPES name = Some w -> 0 < density w /\ 0 < q_mj_kg w.
Proof.
  unfold WOOD_TYPES. cbn [lookup].
  repeat match goal with
         | |- context [String.eqb ?a ?b] => destruct (String.eqb a b)
         end; intros H; inversion H; subst; simpl; try lra.
Qed.

(** ** Wall resistance *)

Lemma COMPOSITE_not_in_MATERIALS : lookup MATERIALS COMPOSITE = None.
Proof. reflexivity. Qed.

Lemma calculate_wall_r_value_homogeneous (m : string) (th wool : R) :
  String.eqb m COMPOSITE = false ->
  calculate_wall_r_value m th wool = Ret (R_SI + th / get MATERIALS m 0.81 + R_SE).
Proof.
  intros Hm. unfold calculate_wall_r_value. rewrite Hm.
  rewrite div_ok by (apply Rgt_not_eq, MATERIALS_positive).
  reflexivity.
Qed.

Lemma calculate_wall_r_value_composite (th wool : R) :
  calculate_wall_r_value COMPOSITE th wool =
  Ret (R_SI + (0.009 / 0.13 + wool / 0.045 + 0.0005 / 58.0) + R_SE).
Proof.
  unfold calculate_wall_r_value. rewrite String.eqb_refl.
  change (getitem MATERIALS "OSB") with (Ret (A := R) 0.13).
  change (getitem MATERIALS "Минеральная вата") with (Ret (A := R) 0.045).
  change (getitem MATERIALS "Профнастил (сталь)") with (Ret (A := R) 58.0).
  cbn [bind].
  rewrite !div_ok by lra. reflexivity.
Qed.

(** The function returns on every material name, and never less than the
    two surface resistances. *)
Lemma calculate_wall_r_value_total (m : string) (th wool : R) :
  0 <= th -> 0 <= wool ->
  exists r, calculate_wall_r_value m th wool = Ret r /\ 0.17 <= r.
Proof.
  intros Hth Hwool. destruct (String.eqb m COMPOSITE) eqn:Hm.
  - apply String.eqb_eq in Hm. subst m.
    rewrite calculate_wall_r_value_composite. eexists. split; [reflexivity |].
    unfold R_SI, R_SE.
    assert (0 <= wool / 0.045) by (apply Rle_mult_inv_pos; lra).
    lra.
  - rewrite calculate_wall_r_value_homogeneous by exact Hm.
    eexists. split; [reflexivity |].
    unfold R_SI, R_SE.
    assert (0 <= th / get MATERIALS m 0.81)
      by (apply Rle_mult_inv_pos; [lra | apply MATERIALS_positive]).
    lra.
Qed.

(** C9, as amended.  For every material name and non-negative thicknesses
    [calculate_wall_r_value] returns without raising and the result is at
    least 0.17.  For every name other than the layered kind the result is
    [0.13 + thickness / conductivity + 0.04], a name absent from the table
    taking brick's 0.81.  For the layered kind the result is the sum of the
    three fixed layers, with the wool thickness in place of the wall
    thickness. *)
Theorem calculate_wall_r_value_spec (m : string) (th wool : R) :
  0 <= th -> 0 <= wool ->
  (m <> COMPOSITE ->
   calculate_wall_r_value m th wool = Ret (0.13 + th / get MATERIALS m 0.81 + 0.04))
  /\ (m <> COMPOSITE -> lookup MATERIALS m = None -> get MATERIALS m 0.81 = 0.81)
  /\ (m = COMPOSITE ->
      calculate_wall_r_value m th wool =
      Ret (0.13 + (0.009 / 0.13 + wool / 0.045 + 0.0005 / 58.0) + 0.04))
  /\ exists r, calculate_wall_r_value m th wool = Ret r /\ 0.17 <= r.
Proof.
  intros Hth Hwool. repeat split.
  - intros Hm. apply calculate_wall_r_value_homogeneous.
    apply String.eqb_neq. exact Hm.
  - intros _ Hnone. unfold get. rewrite Hnone. reflexivity.
  - intros ->. apply calculate_wall_r_value_composite.
  - apply calculate_wall_r_value_total; assumption.
Qed.

Lemma calculate_wall_r_value_spec_witness :
  calculate_wall_r_value "Кирпич" 0.4 0.05 = Ret (0.13 + 0.4 / 0.81 + 0.04).
Proof.
  destruct (calculate_wall_r_value_spec "Кирпич" 0.4 0.05) as [H _]; [lra | lra |].
  rewrite H; [reflexivity | discriminate].
Defined.

(** C9 as stated fails on the layered wall kind: its name is absent from
    the table, yet the result is not the brick formula. *)
Lemma calculate_wall_r_value_composite_counterexample :
  lookup MATERIALS "Минеральная вата с обшивкой" = None
  /\ 0 <= 0.4
  /\ calculate_wall_r_value "Минеральная вата с обшивкой" 0.4 0.05
     <> Ret (0.13 + 0.4 / 0.81 + 0.04).
Proof.
  split; [reflexivity |]. split; [lra |].
  change "Минеральная вата с обшивкой" with COMPOSITE.
  rewrite calculate_wall_r_value_composite. unfold R_SI, R_SE.
  intros H. inversion H. lra.
Qed.

(** ** Heat loss *)

Lemma calculate_heat_loss_no_heating (area height rw rf rc ti to : R) :
  ti - to <= 0 -> calculate_heat_loss area height rw rf rc ti to = Ret 0.
Proof.
  intros Hdt. unfold calculate_heat_loss.
  apply leb_true_iff in Hdt. rewrite Hdt. reflexivity.
Qed.

Lemma calculate_heat_loss_heating (area height rw rf rc ti to : R) :
  0 <= area -> rw <> 0 -> rf <> 0 -> rc <> 0 -> 0 < ti - to ->
  calculate_heat_loss area height rw rf rc ti to =
  Ret ((4 * sqrt area * height * (ti - to) / rw
        + area * (ti - to) / rf + area * (ti - to) / rc) / 1000).
Proof.
  intros Ha Hw Hf Hc Hdt. unfold calculate_heat_loss.
  apply leb_false_iff in Hdt. rewrite Hdt.
  rewrite math_sqrt_ok by exact Ha. cbn [bind].
  rewrite !div_ok by (assumption || lra). cbn [bind].
  rewrite div_ok by lra. f_equal. field. auto.
Qed.

(** C4.  For positive area, height and resistances [calculate_heat_loss]
    returns exactly 0 when [t_in - t_out <= 0], otherwise
    [(4*sqrt(area)*height*dt/R_wall + area*dt/R_floor + area*dt/R_ceiling)/1000]
    with [dt = t_in - t_out]; the result is never negative. *)
Theorem calculate_heat_loss_spec (area height rw rf rc ti to : R) :
  0 < area -> 0 < height -> 0 < rw -> 0 < rf -> 0 < rc ->
  (ti - to <= 0 -> calculate_heat_loss area height rw rf rc ti to = Ret 0)
  /\ (0 < ti - to ->
      calculate_heat_loss area height rw rf rc ti to =
      Ret ((4 * sqrt area * height * (ti - to) / rw
            + area * (ti - to) / rf + area * (ti - to) / rc) / 1000))
  /\ exists q, calculate_heat_loss area height rw rf rc ti to = Ret q /\ 0 <= q.
Proof.
  intros Ha Hh Hw Hf Hc. split; [| split].
  - apply calculate_heat_loss_no_heating.
  - intros Hdt. apply calculate_heat_loss_heating; lra.
  - destruct (Rle_dec (ti - to) 0) as [Hdt | Hdt].
    + exists 0. split; [apply calculate_heat_loss_no_heating; exact Hdt | lra].
    + apply Rnot_le_lt in Hdt.
      rewrite calculate_heat_loss_heating by lra.
      eexists. split; [reflexivity |].
      pose proof (sqrt_pos area) as Hs.
      assert (0 <= 4 * sqrt area * height * (ti - to) / rw).
      { apply Rle_mult_inv_pos; [| exact Hw].
        repeat apply Rmult_le_pos; lra. }
      assert (0 <= area * (ti - to) / rf).
      { apply Rle_mult_inv_pos; [| exact Hf]. apply Rmult_le_pos; lra. }
      assert (0 <= area * (ti - to) / rc).
      { apply Rle_mult_inv_pos; [| exact Hc]. apply Rmult_le_pos; lra. }
      lra.
Qed.

Lemma sqrt_100 : sqrt 100 = 10.
Proof. replace 100 with (10 * 10) by lra. apply sqrt_square. lra. Qed.

Lemma calculate_heat_loss_spec_witness :
  calculate_heat_loss 100 2.5 1 2.5 3.5 22 (-20) =
  Ret ((4 * 10 * 2.5 * 42 / 1 + 100 * 42 / 2.5 + 100 * 42 / 3.5) / 1000).
Proof.
  destruct (calculate_heat_loss_spec 100 2.5 1 2.5 3.5 22 (-20)) as (_ & H & _);
    try lra.
  rewrite H by lra. rewrite sqrt_100. f_equal. lra.
Defined.

(** ** The burn curve *)

Lemma getitem_Some {V : Type} (d : dict V) (k : string) (v : V) :
  lookup d k = Some v -> getitem d k = Ret v.
Proof. intros H. unfold getitem. rewrite H. reflexivity. Qed.

Lemma getitem_Ret_inv {V : Type} (d : dict V) (k : string) (v : V) :
  getitem d k = Ret v -> lookup d k = Some v.
Proof. unfold getitem. destruct (lookup d k); intros H; inversion H; reflexivity. Qed.

Lemma mapM_pure {A B : Type} (f : A -> result B) (g : A -> B) (xs : list A) :
  (forall x, In x xs -> f x = Ret (g x)) -> mapM f xs = Ret (map g xs).
Proof.
  induction xs as [| x xs IH]; intros H; [reflexivity |].
  cbn [mapM map]. rewrite H by (left; reflexivity). cbn [bind].
  rewrite IH by (intros y Hy; apply H; right; exact Hy). reflexivity.
Qed.


Lemma power_sample_ok (peak bh t : R) :
  bh <> 0 -> power_sample peak bh t = Ret (max0 (peak * (1 - t / bh))).
Proof. intros Hbh. unfold power_sample. rewrite div_ok by exact Hbh. reflexivity. Qed.

(** With a known wood and a positive duration the function returns, and
    its three results have a closed form. *)
Lemma get_furnace_power_curve_ok (v f : R) (name : string) (w : Wood) (e bh : R) :
  lookup WOOD_TYPES name = Some w -> 0 < bh ->
  get_furnace_power_curve v f name e bh =
  Ret (map (fun i => IZR i * 0.5) (range (int (bh * 2) + 1)),
       map (fun t => max0 (v / 1000 * f * density w * q_mj_kg w / 3.6 * e / bh * 2
                           * (1 - t / bh)))
           (map (fun i => IZR i * 0.5) (range (int (bh * 2) + 1))),
       v / 1000 * f * density w * q_mj_kg w / 3.6 * e).
Proof.
  intros Hw Hbh. unfold get_furnace_power_curve.
  rewrite div_ok by lra. cbn [bind].
  rewrite (getitem_Some _ _ _ Hw). cbn [bind].
  rewrite div_ok by lra. cbn [bind].
  assert (Hgt : gtb bh 0 = true) by (apply gtb_true_iff; exact Hbh).
  rewrite Hgt. rewrite div_ok by lra. cbn [bind].
  erewrite mapM_pure; [reflexivity |].
  intros t _. apply power_sample_ok. lra.
Qed.

(** Whatever the duration, a returned curve comes from a known wood. *)
Lemma get_furnace_power_curve_Ret_inv (v f : R) (name : string) (e bh : R)
    (ts ps : list R) (total : R) :
  get_furnace_power_curve v f name e bh = Ret (ts, ps, total) ->
  exists w, lookup WOOD_TYPES name = Some w
            /\ total = v / 1000 * f * density w * q_mj_kg w / 3.6 * e.
Proof.
  unfold get_furnace_power_curve. intros H.
  rewrite div_ok in H by lra. cbn [bind] in H.
  destruct (getitem WOOD_TYPES name) as [w |] eqn:Hw; [| discriminate].
  cbn [bind] in H. rewrite div_ok in H by lra. cbn [bind] in H.
  apply bind_Ret_inv in H. destruct H as (avg & _ & H).
  apply bind_Ret_inv in H. destruct H as (pp & _ & H).
  inversion H. exists w. split; [apply getitem_Ret_inv; exact Hw | reflexivity].
Qed.

Lemma total_kwh_nonneg (v f e : R) (name : string) (w : Wood) :
  lookup WOOD_TYPES name = Some w -> 0 <= v -> 0 <= f -> 0 <= e ->
  0 <= v / 1000 * f * density w * q_mj_kg w / 3.6 * e.
Proof.
  intros Hw Hv Hf He. apply WOOD_TYPES_positive in Hw. destruct Hw as [Hd Hq].
  apply Rmult_le_pos; [| exact He].
  apply Rle_mult_inv_pos; [| lra].
  repeat apply Rmult_le_pos; try lra.
Qed.

Lemma sample_times_head (bh : R) :
  0 <= bh ->
  exists rest,
    map (fun i => IZR i * 0.5) (range (int (bh * 2) + 1)) = (0 * 0.5) :: rest.
Proof.
  intros Hbh.
  assert (Hn : (0 <= int (bh * 2))%Z) by (apply int_nonneg; lra).
  rewrite range_pos_cons by lia. cbn [map]. eexists. reflexivity.
Qed.

Lemma get_furnace_power_curve_zero_duration (v f : R) (name : string) (w : Wood)
    (e : R) :
  lookup WOOD_TYPES name = Some w ->
  get_furnace_power_curve v f name e 0 = Raise ZeroDivisionError.
Proof.
  intros Hw. unfold get_furnace_power_curve.
  rewrite div_ok by lra. cbn [bind].
  rewrite (getitem_Some _ _ _ Hw). cbn [bind].
  rewrite div_ok by lra. cbn [bind].
  assert (Hgt : gtb 0 0 = false) by (apply gtb_false_iff; lra).
  rewrite Hgt. cbn [bind].
  replace (0 * 2) with (IZR 0) by lra. rewrite int_IZR.
  change (range (0 + 1)) with [0%Z]. cbn [map mapM].
  unfold power_sample. rewrite div_by_zero. reflexivity.
Qed.

(** C3.  At a zero burn duration the guarded average is 0, but the
    sampling loop still divides the first sample time by the duration: the
    call returns for no wood name at all, and for a wood of the table it
    raises [ZeroDivisionError]. *)
Theorem get_furnace_power_curve_zero_duration_raises (v f e : R) :
  (forall name, exists ex, get_furnace_power_curve v f name e 0 = Raise ex)
  /\ get_furnace_power_curve v f "Берёза" e 0 = Raise ZeroDivisionError.
Proof.
  split.
  - intros name. destruct (lookup WOOD_TYPES name) as [w |] eqn:Hw.
    + exists ZeroDivisionError.
      apply (get_furnace_power_curve_zero_duration v f name w e Hw).
    + exists KeyError. unfold get_furnace_power_curve.
      rewrite div_ok by lra. cbn [bind]. unfold getitem. rewrite Hw. reflexivity.
  - apply (get_furnace_power_curve_zero_duration v f "Берёза" (mkWood 450 18.0)).
    reflexivity.
Qed.

(** C7.  For a positive burn duration and a known wood the function
    returns; the sample at every sample time [t] is
    [max(0, P_peak * (1 - t/duration))] with [P_peak = 2 * avg_power] and
    [avg_power = (fuel_energy_MJ / 3.6 * efficiency) / duration]; and for
    non-negative volume, fill fraction and efficiency the first sample time
    is 0 and its sample is exactly [2 * avg_power]. *)
Theorem get_furnace_power_curve_samples
    (v f : R) (name : string) (w : Wood) (e bh : R) :
  0 < bh -> lookup WOOD_TYPES name = Some w ->
  let fuel_energy_mj := v / 1000 * f * density w * q_mj_kg w in
  let avg_power := (fuel_energy_mj / 3.6 * e) / bh in
  let p_peak := 2 * avg_power in
  exists ts ps,
    get_furnace_power_curve v f name e bh = Ret (ts, ps, fuel_energy_mj / 3.6 * e)
    /\ List.length ps = List.length ts
    /\ (forall i t, nth_error ts i = Some t ->
                    nth_error ps i = Some (Rmax 0 (p_peak * (1 - t / bh))))
    /\ (0 <= v -> 0 <= f -> 0 <= e ->
        nth_error ts 0 = Some 0 /\ nth_error ps 0 = Some (2 * avg_power)).
Proof.
  intros Hbh Hw fuel avg peak.
  rewrite (get_furnace_power_curve_ok v f name w e bh Hw Hbh).
  eexists. eexists. split; [reflexivity |].
  split; [apply length_map |]. split.
  - intros i t Hi. rewrite nth_error_map, Hi. cbn [option_map].
    rewrite max0_Rmax. do 2 f_equal. unfold peak, avg, fuel. lra.
  - intros Hv Hf He.
    destruct (sample_times_head bh) as [rest Hts]; [lra |].
    rewrite Hts. cbn [map nth_error]. split; [f_equal; lra |].
    f_equal. rewrite max0_of_nonneg.
    + unfold avg, fuel. field. lra.
    + pose proof (total_kwh_nonneg v f e name w Hw Hv Hf He) as Htot.
      replace (0 * 0.5 / bh) with 0 by (field; lra).
      assert (0 <= v / 1000 * f * density w * q_mj_kg w / 3.6 * e / bh)
        by (apply Rle_mult_inv_pos; assumption).
      lra.
Qed.

Lemma get_furnace_power_curve_samples_witness :
  exists ts ps,
    get_furnace_power_curve 125 0.8 "Хвойные (сосна, ель)" 0.85 8 =
      Ret (ts, ps, 125 / 1000 * 0.8 * 350 * 17.0 / 3.6 * 0.85)
    /\ nth_error ps 0 = Some (2 * (125 / 1000 * 0.8 * 350 * 17.0 / 3.6 * 0.85 / 8)).
Proof.
  destruct (get_furnace_power_curve_samples 125 0.8 "Хвойные (сосна, ель)"
              (mkWood 350 17.0) 0.85 8) as (ts & ps & Hrun & _ & _ & H0);
    [lra | reflexivity |].
  exists ts, ps. split; [exact Hrun |].
  destruct H0 as [_ H0]; [lra | lra | lra |]. exact H0.
Defined.


Lemma sample_times_last (k : Z) :
  (0 <= k)%Z -> last (map (fun i => IZR i * 0.5) (range (k + 1))) 0 = IZR k * 0.5.
Proof.
  intros Hk. rewrite range_succ by exact Hk. rewrite map_app. cbn [map].
  apply last_last.
Qed.





(** ** The selection loop *)

Lemma loop_body_Ret_inv (inp : Inputs) (req : R) (st st' : LoopState)
    (item : string * FurnaceParams) :
  loop_body inp req st item = Ret st' ->
  exists d,
    data_of inp item d
    /\ all_models_data st' = (all_models_data st ++ [d])%list
    /\ ((req <= avg_power d /\ best_model_avg_power st < avg_power d
         /\ recommended_model st' = Some (model d)
         /\ best_model_avg_power st' = avg_power d)
        \/ (~ (req <= avg_power d /\ best_model_avg_power st < avg_power d)
            /\ recommended_model st' = recommended_model st
            /\ best_model_avg_power st' = best_model_avg_power st)).
Proof.
  destruct item as [name params]. unfold loop_body. intros H.
  apply bind_Ret_inv in H. destruct H as ([[ts ps] total] & Hcurve & H).
  apply bind_Ret_inv in H. destruct H as (avg & Havg & H).
  exists (mkData name ts ps avg). split.
  { split; [reflexivity |]. exists total. split; assumption. }
  destruct (geb avg req) eqn:Hq; destruct (gtb avg (best_model_avg_power st)) eqn:Hb;
    cbn [andb] in H; inversion H; subst st'; clear H; cbn;
    (split; [reflexivity |]).
  - left. apply geb_true_iff in Hq. apply gtb_true_iff in Hb. auto.
  - right. apply gtb_false_iff in Hb. split; [lra | auto].
  - right. apply geb_false_iff in Hq. split; [lra | auto].
  - right. apply geb_false_iff in Hq. split; [lra | auto].
Qed.

Lemma selection_inv_best_nonneg (req : R) (st : LoopState) :
  selection_inv req st -> 0 <= best_model_avg_power st.
Proof.
  unfold selection_inv. destruct (recommended_model st).
  - intros (l1 & d & l2 & _ & _ & Hb & Hpos & _). lra.
  - intros [Hb _]. lra.
Qed.

Lemma selection_inv_bound (req : R) (st : LoopState) (d : ModelData) :
  selection_inv req st -> In d (all_models_data st) -> req <= avg_power d ->
  avg_power d <= best_model_avg_power st.
Proof.
  unfold selection_inv. destruct (recommended_model st).
  - intros (l1 & d0 & l2 & Hall & _ & Hb & _ & _ & H1 & H2) Hin Hq.
    rewrite Hall in Hin. apply in_app_or in Hin. destruct Hin as [Hin | [<- | Hin]].
    + specialize (H1 d Hin Hq). lra.
    + lra.
    + specialize (H2 d Hin Hq). lra.
  - intros [Hb Hnone] Hin Hq. rewrite Hb. apply Hnone; assumption.
Qed.

Lemma selection_inv_step (req : R) (st st' : LoopState) (d : ModelData) :
  selection_inv req st ->
  all_models_data st' = (all_models_data st ++ [d])%list ->
  ((req <= avg_power d /\ best_model_avg_power st < avg_power d
    /\ recommended_model st' = Some (model d)
    /\ best_model_avg_power st' = avg_power d)
   \/ (~ (req <= avg_power d /\ best_model_avg_power st < avg_power d)
       /\ recommended_model st' = recommended_model st
       /\ best_model_avg_power st' = best_model_avg_power st)) ->
  selection_inv req st'.
Proof.
  intros Hinv Hall [(Hq & Hb & Hrec & Hbest) | (Hno & Hrec & Hbest)].
  - unfold selection_inv. rewrite Hrec.
    exists (all_models_data st), d, []. repeat split; auto.
    + pose proof (selection_inv_best_nonneg req st Hinv). lra.
    + intros d' Hin Hq'.
      pose proof (selection_inv_bound req st d' Hinv Hin Hq'). lra.
    + intros d' [].
  - pose proof Hinv as Hinv0.
    unfold selection_inv in Hinv |- *. rewrite Hrec, Hbest, Hall.
    destruct (recommended_model st) as [m |].
    + destruct Hinv as (l1 & d0 & l2 & Hall0 & Hm & Hb & Hpos & Hq & H1 & H2).
      exists l1, d0, (l2 ++ [d])%list. repeat split; auto.
      * rewrite Hall0, <- app_assoc. reflexivity.
      * intros d' Hin Hq'. apply in_app_or in Hin. destruct Hin as [Hin | [<- | []]].
        -- apply H2; assumption.
        -- apply Rnot_lt_le. intros Hlt. apply Hno. split; [exact Hq' | lra].
    + destruct Hinv as [Hb Hnone]. split; [exact Hb |].
      intros d' Hin Hq'. apply in_app_or in Hin. destruct Hin as [Hin | [<- | []]].
      * apply Hnone; assumption.
      * apply Rnot_lt_le. intros Hlt. apply Hno. split; [exact Hq' | lra].
Qed.

Lemma selection_inv_init (req : R) : selection_inv req loop_init.
Proof. split; [reflexivity | intros d []]. Qed.

Lemma foldM_loop_inv (inp : Inputs) (req : R) (items : dict FurnaceParams) :
  forall st st',
    foldM (loop_body inp req) items st = Ret st' ->
    selection_inv req st ->
    exists ds,
      all_models_data st' = (all_models_data st ++ ds)%list
      /\ Forall2 (data_of inp) items ds
      /\ selection_inv req st'.
Proof.
  induction items as [| item items IH]; intros st st' H Hinv.
  - inversion H. subst st'. exists []. rewrite app_nil_r. auto.
  - cbn [foldM] in H. apply bind_Ret_inv in H. destruct H as (st1 & Hbody & Hrest).
    apply loop_body_Ret_inv in Hbody. destruct Hbody as (d & Hd & Hall & Hsel).
    pose proof (selection_inv_step req st st1 d Hinv Hall Hsel) as Hinv1.
    destruct (IH st1 st' Hrest Hinv1) as (ds & Hall' & Hds & Hinv').
    exists (d :: ds). split; [| split; [constructor; assumption | exact Hinv']].
    rewrite Hall', Hall, <- app_assoc. reflexivity.
Qed.

(** What a returned run went through. *)
Lemma run_Ret_inv (inp : Inputs) (out : Outputs) :
  run inp = Ret out ->
  calculate_wall_r_value (material_type inp) (thickness_cm inp / 100)
    (if String.eqb (material_type inp) COMPOSITE then thickness_cm inp / 100 else 0.05)
  = Ret (wall_r_val out)
  /\ calculate_heat_loss (area inp) (height inp) (wall_r_val out) 2.5 3.5
       (t_in inp) (t_out inp) = Ret (heat_loss_kw out)
  /\ required_power_with_margin out = heat_loss_kw out * 1.2
  /\ foldM (loop_body inp (required_power_with_margin out)) MUSSON_MODELS loop_init
     = Ret (selection out)
  /\ cascade_logic (selection out) (heat_loss_kw out) (required_power_with_margin out)
     = Ret (cascade_option out)
  /\ refuel_logic (selection out) (required_power_with_margin out)
     = Ret (refuel_time out).
Proof.
  unfold run. intros H.
  apply bind_Ret_inv in H. destruct H as (wt & Hwt & H).
  apply bind_Ret_inv in H. destruct H as (mw & Hmw & H).
  apply bind_Ret_inv in H. destruct H as (wr & Hwr & H).
  apply bind_Ret_inv in H. destruct H as (hl & Hhl & H).
  apply bind_Ret_inv in H. destruct H as (st & Hst & H).
  apply bind_Ret_inv in H. destruct H as (c & Hc & H).
  apply bind_Ret_inv in H. destruct H as (r & Hr & H).
  inversion H. subst out. cbn.
  apply div_Ret_inv in Hwt. destruct Hwt as [_ ->].
  assert (Hmw' : mw = if String.eqb (material_type inp) COMPOSITE
                      then thickness_cm inp / 100 else 0.05).
  { destruct (String.eqb (material_type inp) COMPOSITE).
    - apply div_Ret_inv in Hmw. tauto.
    - inversion Hmw. reflexivity. }
  rewrite <- Hmw'. auto 10.
Qed.

Lemma run_selection (inp : Inputs) (out : Outputs) :
  run inp = Ret out ->
  Forall2 (data_of inp) MUSSON_MODELS (all_models_data (selection out))
  /\ selection_inv (required_power_with_margin out) (selection out).
Proof.
  intros H. apply run_Ret_inv in H. destruct H as (_ & _ & _ & Hfold & _).
  apply foldM_loop_inv in Hfold; [| apply selection_inv_init].
  destruct Hfold as (ds & Hall & Hds & Hinv). cbn in Hall. subst ds.
  split; assumption.
Qed.

(** ** The entries of [all_models_data] in closed form *)

Lemma data_of_model_entry (inp : Inputs) (w : Wood) (item : string * FurnaceParams)
    (d : ModelData) :
  lookup WOOD_TYPES (wood_type inp) = Some w -> 0 < burn_hours inp ->
  data_of inp item d -> d = model_entry inp w item.
Proof.
  intros Hw Hbh (Hname & total & Hcurve & Havg).
  rewrite (get_furnace_power_curve_ok _ _ _ w _ _ Hw Hbh) in Hcurve.
  assert (Hgt : gtb (burn_hours inp) 0 = true) by (apply gtb_true_iff; exact Hbh).
  rewrite Hgt in Havg. rewrite div_ok in Havg by lra.
  destruct d as [m ts ps avg]. cbn in *.
  inversion Hcurve. inversion Havg. subst. reflexivity.
Qed.

Lemma model_entry_data_of (inp : Inputs) (w : Wood) (item : string * FurnaceParams) :
  lookup WOOD_TYPES (wood_type inp) = Some w -> 0 < burn_hours inp ->
  data_of inp item (model_entry inp w item).
Proof.
  intros Hw Hbh. split; [reflexivity |]. eexists. split.
  - rewrite (get_furnace_power_curve_ok _ _ _ w _ _ Hw Hbh). reflexivity.
  - assert (Hgt : gtb (burn_hours inp) 0 = true) by (apply gtb_true_iff; exact Hbh).
    rewrite Hgt. rewrite div_ok by lra. reflexivity.
Qed.

Lemma Forall2_map_eq {A B : Type} (P : A -> B -> Prop) (g : A -> B)
    (xs : list A) (ys : list B) :
  (forall x y, P x y -> y = g x) -> Forall2 P xs ys -> ys = map g xs.
Proof.
  intros Hg H. induction H as [| x y xs ys Hxy _ IH]; [reflexivity |].
  cbn [map]. rewrite (Hg x y Hxy), IH. reflexivity.
Qed.

Lemma run_all_models_data (inp : Inputs) (out : Outputs) (w : Wood) :
  run inp = Ret out ->
  lookup WOOD_TYPES (wood_type inp) = Some w -> 0 < burn_hours inp ->
  all_models_data (selection out) = map (model_entry inp w) MUSSON_MODELS.
Proof.
  intros Hrun Hw Hbh. apply run_selection in Hrun. destruct Hrun as [Hds _].
  apply (Forall2_map_eq (data_of inp)); [| exact Hds].
  intros item d. apply data_of_model_entry; assumption.
Qed.

Lemma model_entry_avg (inp : Inputs) (w : Wood) (item : string * FurnaceParams) :
  0 < burn_hours inp ->
  avg_power (model_entry inp w item) = volume_l (snd item) * unit_power inp w.
Proof. intros Hbh. unfold model_entry, unit_power. cbn [avg_power]. field. lra. Qed.

Lemma unit_power_pos (inp : Inputs) (w : Wood) :
  lookup WOOD_TYPES (wood_type inp) = Some w ->
  0 < fill_fraction inp -> 0 < efficiency inp -> 0 < burn_hours inp ->
  0 < unit_power inp w.
Proof.
  intros Hw Hf He Hbh. apply WOOD_TYPES_positive in Hw. destruct Hw as [Hd Hq].
  unfold unit_power.
  apply Rdiv_lt_0_compat; [| exact Hbh].
  apply Rmult_lt_0_compat; [| exact He].
  apply Rdiv_lt_0_compat; [| lra].
  repeat apply Rmult_lt_0_compat; lra.
Qed.

(** A positive average power can only come from a positive duration. *)
Lemma data_of_avg_pos (inp : Inputs) (item : string * FurnaceParams) (d : ModelData) :
  data_of inp item d -> 0 < avg_power d ->
  0 < burn_hours inp /\ exists w, lookup WOOD_TYPES (wood_type inp) = Some w.
Proof.
  intros (_ & total & Hcurve & Havg) Hpos.
  destruct (gtb (burn_hours inp) 0) eqn:Hgt.
  - apply gtb_true_iff in Hgt. split; [exact Hgt |].
    destruct (get_furnace_power_curve_Ret_inv _ _ _ _ _ _ _ _ Hcurve) as (w & Hw & _).
    exists w. exact Hw.
  - inversion Havg. lra.
Qed.

(** ** The catalog *)

Lemma MUSSON_MODELS_names_NoDup : NoDup (map fst MUSSON_MODELS).
Proof.
  cbn [map fst MUSSON_MODELS].
  repeat (constructor; [cbn [In]; intros H; repeat destruct H as [H | H];
                        try discriminate H; try contradiction |]).
  constructor.
Qed.

Lemma MUSSON_MODELS_names_nonempty (m : string) :
  In m (map fst MUSSON_MODELS) -> String.eqb m "" = false.
Proof.
  cbn [map fst MUSSON_MODELS In].
  intros H; repeat destruct H as [H | H]; try contradiction; subst m; reflexivity.
Qed.

Lemma Forall2_data_of_names (inp : Inputs) (items : dict FurnaceParams)
    (ds : list ModelData) :
  Forall2 (data_of inp) items ds -> map model ds = map fst items.
Proof.
  intros H. induction H as [| item d items ds [Hname _] _ IH]; [reflexivity |].
  cbn [map]. rewrite Hname, IH. reflexivity.
Qed.

Lemma Forall2_In_r {A B : Type} (P : A -> B -> Prop) (xs : list A) (ys : list B)
    (y : B) :
  Forall2 P xs ys -> In y ys -> exists x, In x xs /\ P x y.
Proof.
  intros H. induction H as [| x0 y0 xs ys Hxy _ IH]; intros Hin; [destruct Hin |].
  destruct Hin as [<- | Hin].
  - exists x0. split; [left; reflexivity | exact Hxy].
  - destruct (IH Hin) as (x & Hx & Hp). exists x. split; [right; exact Hx | exact Hp].
Qed.

Lemma NoDup_map_eq {A B : Type} (f : A -> B) (l : list A) (x y : A) :
  NoDup (map f l) -> In x l -> In y l -> f x = f y -> x = y.
Proof.
  induction l as [| a l IH]; intros Hnd Hx Hy Hf; [destruct Hx |].
  cbn [map] in Hnd. inversion Hnd as [| ? ? Hnotin Hnd']. subst.
  destruct Hx as [-> | Hx]; destruct Hy as [-> | Hy].
  - reflexivity.
  - exfalso. apply Hnotin. rewrite Hf. apply in_map. exact Hy.
  - exfalso. apply Hnotin. rewrite <- Hf. apply in_map. exact Hx.
  - apply IH; assumption.
Qed.

(** ** The run returns on every well-formed input *)

Lemma loop_body_total (inp : Inputs) (req : R) (w : Wood) (st : LoopState)
    (item : string * FurnaceParams) :
  lookup WOOD_TYPES (wood_type inp) = Some w -> 0 < burn_hours inp ->
  exists st', loop_body inp req st item = Ret st'.
Proof.
  intros Hw Hbh. destruct item as [name params]. unfold loop_body.
  rewrite (get_furnace_power_curve_ok _ _ _ w _ _ Hw Hbh). cbn [bind].
  assert (Hgt : gtb (burn_hours inp) 0 = true) by (apply gtb_true_iff; exact Hbh).
  rewrite Hgt. rewrite div_ok by lra. cbn [bind].
  match goal with |- context [if ?c then _ else _] => destruct c end;
    eexists; reflexivity.
Qed.

Lemma foldM_loop_total (inp : Inputs) (req : R) (w : Wood) (items : dict FurnaceParams) :
  lookup WOOD_TYPES (wood_type inp) = Some w -> 0 < burn_hours inp ->
  forall st, exists st', foldM (loop_body inp req) items st = Ret st'.
Proof.
  intros Hw Hbh. induction items as [| item items IH]; intros st.
  - exists st. reflexivity.
  - cbn [foldM].
    destruct (loop_body_total inp req w st item Hw Hbh) as [st1 ->]. cbn [bind].
    apply IH.
Qed.

Lemma cascade_logic_total (st : LoopState) (hl req : R) :
  all_models_data st <> [] -> exists c, cascade_logic st hl req = Ret c.
Proof.
  intros Hne. unfold cascade_logic.
  destruct (negb (truthy (recommended_model st)) && gtb hl 0);
    [| eexists; reflexivity].
  destruct (all_models_data st) as [| d ds]; [contradiction |].
  cbn [max_by bind].
  destruct (gtb (avg_power (max_from avg_power d ds)) 0) eqn:Hgt;
    [| eexists; reflexivity].
  apply gtb_true_iff in Hgt. rewrite div_ok by lra. cbn [bind].
  destruct (1 <? _)%Z; eexists; reflexivity.
Qed.

Lemma truthy_Some_inv (o : option string) :
  truthy o = true -> exists m, o = Some m /\ m <> "".
Proof.
  destruct o as [m |]; cbn; [| discriminate].
  intros H. exists m. split; [reflexivity |].
  apply negb_true_iff in H. apply String.eqb_neq. exact H.
Qed.

Lemma selection_inv_recommended_In (req : R) (st : LoopState) (m : string) :
  selection_inv req st -> recommended_model st = Some m ->
  exists d, In d (all_models_data st) /\ model d = m
            /\ 0 < avg_power d /\ req <= avg_power d
            /\ forall d', In d' (all_models_data st) -> req <= avg_power d' ->
                          avg_power d' <= avg_power d.
Proof.
  intros Hinv Hrec.
  pose proof (fun d => selection_inv_bound req st d Hinv) as Hbound.
  unfold selection_inv in Hinv. rewrite Hrec in Hinv.
  destruct Hinv as (l1 & d & l2 & Hall & Hm & Hb & Hpos & Hq & _).
  exists d. rewrite Hall at 1. split; [apply in_elt |].
  repeat split; try assumption.
  intros d' Hin Hq'. rewrite Hb. apply Hbound; assumption.
Qed.

Lemma refuel_logic_total (req : R) (st : LoopState) :
  selection_inv req st -> exists r, refuel_logic st req = Ret r.
Proof.
  intros Hinv. unfold refuel_logic.
  destruct (truthy (recommended_model st)) eqn:Ht; [| eexists; reflexivity].
  apply truthy_Some_inv in Ht. destruct Ht as (m & Hrec & _).
  destruct (selection_inv_recommended_In req st m Hinv Hrec) as (d & Hin & Hm & _).
  rewrite Hrec. unfold next_such.
  destruct (find _ (all_models_data st)) as [d' |] eqn:Hfind.
  - cbn [bind]. eexists. reflexivity.
  - apply (find_none _ _ Hfind) in Hin. rewrite Hm, String.eqb_refl in Hin.
    discriminate.
Qed.

(** For a known wood and a positive burn duration the script runs to the
    end, provided the heat-loss formula is defined: either no heating is
    needed or the area and the wall thickness are not negative. *)
Lemma run_total (inp : Inputs) (w : Wood) :
  lookup WOOD_TYPES (wood_type inp) = Some w -> 0 < burn_hours inp ->
  t_in inp - t_out inp <= 0 \/ (0 <= area inp /\ 0 <= thickness_cm inp) ->
  exists out, run inp = Ret out.
Proof.
  intros Hw Hbh Hdom. unfold run.
  rewrite div_ok by lra. cbn [bind].
  assert (Hmw : exists mw,
             (if String.eqb (material_type inp) COMPOSITE
              then Ret (thickness_cm inp / 100) else Ret 0.05) = Ret mw
             /\ (0 <= thickness_cm inp -> 0 <= mw)).
  { destruct (String.eqb (material_type inp) COMPOSITE);
      eexists; (split; [reflexivity | intros; lra]). }
  destruct Hmw as (mw & -> & Hmw). cbn [bind].
  assert (Hhl : exists wr hl,
             calculate_wall_r_value (material_type inp) (thickness_cm inp / 100) mw
             = Ret wr
             /\ calculate_heat_loss (area inp) (height inp) wr 2.5 3.5
                  (t_in inp) (t_out inp) = Ret hl).
  { destruct Hdom as [Hdt | [Ha Hth]].
    - assert (Hwr : exists wr, calculate_wall_r_value (material_type inp)
                                 (thickness_cm inp / 100) mw = Ret wr).
      { destruct (String.eqb (material_type inp) COMPOSITE) eqn:Hm.
        - apply String.eqb_eq in Hm. rewrite Hm.
          rewrite calculate_wall_r_value_composite. eexists. reflexivity.
        - rewrite calculate_wall_r_value_homogeneous by exact Hm.
          eexists. reflexivity. }
      destruct Hwr as [wr Hwr]. exists wr, 0. split; [exact Hwr |].
      apply calculate_heat_loss_no_heating. exact Hdt.
    - destruct (calculate_wall_r_value_total (material_type inp)
                  (thickness_cm inp / 100) mw) as (wr & Hwr & Hge);
        [lra | apply Hmw; exact Hth |].
      exists wr. destruct (Rle_dec (t_in inp - t_out inp) 0) as [Hdt | Hdt].
      + exists 0. split; [exact Hwr |].
        apply calculate_heat_loss_no_heating. exact Hdt.
      + eexists. split; [exact Hwr |].
        apply calculate_heat_loss_heating; lra. }
  destruct Hhl as (wr & hl & Hwr & Hhl).
  rewrite Hwr. cbn [bind]. rewrite Hhl. cbn [bind].
  destruct (foldM_loop_total inp (hl * 1.2) w MUSSON_MODELS Hw Hbh loop_init)
    as [st Hst].
  rewrite Hst. cbn [bind].
  destruct (foldM_loop_inv inp (hl * 1.2) MUSSON_MODELS loop_init st Hst
              (selection_inv_init _)) as (ds & Hall & Hds & Hinv).
  destruct (cascade_logic_total st hl (hl * 1.2)) as [c ->].
  { rewrite Hall. cbn [loop_init all_models_data app].
    inversion Hds. discriminate. }
  cbn [bind].
  destruct (refuel_logic_total (hl * 1.2) st Hinv) as [r ->]. cbn [bind].
  eexists. reflexivity.
Qed.

(** ** Which model the loop recommends *)

(** On the catalog the average power grows with the chamber volume, so the
    loop ends on the last model whenever that one qualifies. *)
Lemma run_recommended_largest (inp : Inputs) (out : Outputs) (w : Wood) :
  run inp = Ret out ->
  lookup WOOD_TYPES (wood_type inp) = Some w ->
  0 < fill_fraction inp -> 0 < efficiency inp -> 0 < burn_hours inp ->
  (required_power_with_margin out <= 467 * unit_power inp w ->
   recommended_model (selection out) = Some "Муссон 2000")
  /\ (467 * unit_power inp w < required_power_with_margin out ->
      recommended_model (selection out) = None).
Proof.
  intros Hrun Hw Hf He Hbh.
  pose proof (run_all_models_data inp out w Hrun Hw Hbh) as Hall.
  pose proof (unit_power_pos inp w Hw Hf He Hbh) as Hc.
  destruct (run_selection inp out Hrun) as [_ Hinv].
  assert (Htop : In (model_entry inp w ("Муссон 2000", mkFurnace 467 4 159))
                   (all_models_data (selection out))).
  { rewrite Hall. apply in_map. cbn [MUSSON_MODELS In]. auto 6. }
  assert (Htop_avg : avg_power (model_entry inp w ("Муссон 2000", mkFurnace 467 4 159))
                     = 467 * unit_power inp w).
  { rewrite model_entry_avg by exact Hbh. reflexivity. }
  destruct (recommended_model (selection out)) as [m |] eqn:Hrec.
  - destruct (selection_inv_recommended_In _ _ m Hinv Hrec)
      as (d & Hin & Hm & Hpos & Hq & Hmax).
    specialize (Hmax _ Htop). rewrite Htop_avg in Hmax.
    rewrite Hall in Hin. apply in_map_iff in Hin. destruct Hin as (item & <- & Hitem).
    rewrite model_entry_avg in Hq, Hmax by exact Hbh.
    cbn [MUSSON_MODELS In] in Hitem.
    split; intros Hreq.
    + specialize (Hmax Hreq).
      repeat destruct Hitem as [Hitem | Hitem]; try contradiction; subst item;
        cbn [snd volume_l] in Hmax; try lra.
      rewrite <- Hm. reflexivity.
    + exfalso.
      repeat destruct Hitem as [Hitem | Hitem]; try contradiction; subst item;
        cbn [snd volume_l] in Hq; lra.
  - unfold selection_inv in Hinv. rewrite Hrec in Hinv. destruct Hinv as [_ Hnone].
    split; intros Hreq; [| reflexivity].
    exfalso. specialize (Hnone _ Htop). rewrite Htop_avg in Hnone.
    specialize (Hnone Hreq). lra.
Qed.

(** C1.  If a run recommends a model, then [all_models_data] holds one
    entry per catalog model, in catalog order, each with the average power
    of its own burn curve; the entry of the recommended model qualifies
    (its average power is at least the required load with margin); no
    qualifying entry has a greater average power; and every qualifying
    entry before it in catalog order has a strictly smaller one: the loop
    keeps the first-seen most powerful qualifying model. *)
Theorem recommended_model_most_powerful (inp : Inputs) (out : Outputs) (m : string) :
  run inp = Ret out ->
  recommended_model (selection out) = Some m ->
  Forall2 (data_of inp) MUSSON_MODELS (all_models_data (selection out))
  /\ exists l1 d l2,
       all_models_data (selection out) = (l1 ++ d :: l2)%list
       /\ model d = m
       /\ required_power_with_margin out <= avg_power d
       /\ (forall d', In d' (all_models_data (selection out)) ->
                      required_power_with_margin out <= avg_power d' ->
                      avg_power d' <= avg_power d)
       /\ (forall d', In d' l1 ->
                      required_power_with_margin out <= avg_power d' ->
                      avg_power d' < avg_power d).
Proof.
  intros Hrun Hrec. destruct (run_selection inp out Hrun) as [Hds Hinv].
  split; [exact Hds |].
  pose proof (fun d => selection_inv_bound _ _ d Hinv) as Hbound.
  unfold selection_inv in Hinv. rewrite Hrec in Hinv.
  destruct Hinv as (l1 & d & l2 & Hall & Hm & Hb & Hpos & Hq & H1 & H2).
  exists l1, d, l2. repeat split; try assumption.
  intros d' Hin Hq'. rewrite Hb. apply Hbound; assumption.
Qed.

(** ** The first scenario of the specification, evaluated *)

Lemma scenario_wood :
  lookup WOOD_TYPES (wood_type scenario) = Some (mkWood 350 17.0).
Proof. reflexivity. Qed.

Lemma scenario_run :
  exists out,
    run scenario = Ret out
    /\ wall_r_val out = 0.13 + 0.4 / 0.81 + 0.04
    /\ heat_loss_kw out =
       (4 * 10 * 2.5 * 42 / wall_r_val out + 100 * 42 / 2.5 + 100 * 42 / 3.5) / 1000
    /\ required_power_with_margin out = heat_loss_kw out * 1.2
    /\ all_models_data (selection out) =
       map (model_entry scenario (mkWood 350 17.0)) MUSSON_MODELS
    /\ recommended_model (selection out) = Some "Муссон 2000".
Proof.
  destruct (run_total scenario (mkWood 350 17.0)) as [out Hrun];
    [reflexivity | cbn; lra | right; cbn; lra |].
  exists out. split; [exact Hrun |].
  pose proof (run_Ret_inv scenario out Hrun) as (Hwr & Hhl & Hreq & _).
  unfold scenario in Hwr, Hhl.
  cbn [material_type thickness_cm area height t_in t_out] in Hwr, Hhl.
  rewrite calculate_wall_r_value_homogeneous in Hwr by reflexivity.
  change (get MATERIALS "Кирпич" 0.81) with 0.81 in Hwr.
  assert (Hwr' : wall_r_val out = 0.13 + 0.4 / 0.81 + 0.04).
  { inversion Hwr as [Heq]. unfold R_SI, R_SE. lra. }
  assert (Hwpos : 0 < wall_r_val out) by (rewrite Hwr'; lra).
  rewrite calculate_heat_loss_heating in Hhl by lra.
  rewrite sqrt_100 in Hhl.
  assert (Hhl' : heat_loss_kw out =
                 (4 * 10 * 2.5 * 42 / wall_r_val out + 100 * 42 / 2.5 + 100 * 42 / 3.5)
                 / 1000).
  { inversion Hhl as [Heq]. field. lra. }
  repeat split; try assumption.
  - apply run_all_models_data; [exact Hrun | reflexivity | cbn; lra].
  - apply (run_recommended_largest scenario out (mkWood 350 17.0) Hrun);
      [reflexivity | cbn; lra | cbn; lra | cbn; lra |].
    rewrite Hreq, Hhl'. unfold unit_power, scenario.
    cbn [fill_fraction efficiency burn_hours density q_mj_kg].
    assert (Hdiv : 4 * 10 * 2.5 * 42 / wall_r_val out <= 4 * 10 * 2.5 * 42 / 0.17).
    { apply Rmult_le_compat_l; [lra |]. apply Rinv_le_contravar; lra. }
    lra.
Qed.

Lemma recommended_model_most_powerful_witness :
  exists out,
    run scenario = Ret out
    /\ recommended_model (selection out) = Some "Муссон 2000"
    /\ exists d, In d (all_models_data (selection out))
                 /\ model d = "Муссон 2000"
                 /\ required_power_with_margin out <= avg_power d.
Proof.
  destruct scenario_run as (out & Hrun & _ & _ & _ & _ & Hrec).
  exists out. split; [exact Hrun |]. split; [exact Hrec |].
  destruct (recommended_model_most_powerful scenario out _ Hrun Hrec)
    as (_ & l1 & d & l2 & Hall & Hm & Hq & _).
  exists d. split; [rewrite Hall; apply in_elt |]. split; [exact Hm | exact Hq].
Defined.

(** C2, as amended.  On every run that recommends a model, the catalog
    entry of the recommended model qualifies and has the highest average
    power of all the entries that qualify (not the lowest). *)
Theorem recommended_model_highest_qualifying
    (inp : Inputs) (out : Outputs) (m : string) (d : ModelData) :
  run inp = Ret out ->
  recommended_model (selection out) = Some m ->
  In d (all_models_data (selection out)) -> model d = m ->
  required_power_with_margin out <= avg_power d
  /\ forall d', In d' (all_models_data (selection out)) ->
                required_power_with_margin out <= avg_power d' ->
                avg_power d' <= avg_power d.
Proof.
  intros Hrun Hrec Hin Hm. destruct (run_selection inp out Hrun) as [Hds Hinv].
  destruct (selection_inv_recommended_In _ _ m Hinv Hrec)
    as (d0 & Hin0 & Hm0 & _ & Hq & Hmax).
  assert (Heq : d = d0).
  { apply (NoDup_map_eq model (all_models_data (selection out))); try assumption.
    - rewrite (Forall2_data_of_names inp _ _ Hds). apply MUSSON_MODELS_names_NoDup.
    - congruence. }
  subst d0. split; assumption.
Qed.

Lemma recommended_model_highest_qualifying_witness :
  exists out,
    run scenario = Ret out
    /\ required_power_with_margin out
       <= avg_power (model_entry scenario (mkWood 350 17.0)
                       ("Муссон 2000", mkFurnace 467 4 159)).
Proof.
  destruct scenario_run as (out & Hrun & _ & _ & _ & Hall & Hrec).
  exists out. split; [exact Hrun |].
  apply (recommended_model_highest_qualifying scenario out "Муссон 2000" _ Hrun Hrec).
  - rewrite Hall. apply in_map. cbn [MUSSON_MODELS In]. auto 6.
  - reflexivity.
Defined.

(** C2 as stated fails on the first scenario of the specification: the
    run recommends "Муссон 2000" although "Муссон 600" qualifies with a
    lower average power. *)
Lemma recommended_model_not_lowest_counterexample :
  exists out d d',
    run scenario = Ret out
    /\ In d (all_models_data (selection out))
    /\ In d' (all_models_data (selection out))
    /\ recommended_model (selection out) = Some (model d)
    /\ model d = "Муссон 2000"
    /\ model d' = "Муссон 600"
    /\ required_power_with_margin out <= avg_power d'
    /\ avg_power d' < avg_power d.
Proof.
  destruct scenario_run as (out & Hrun & Hwr & Hhl & Hreq & Hall & Hrec).
  exists out,
    (model_entry scenario (mkWood 350 17.0) ("Муссон 2000", mkFurnace 467 4 159)),
    (model_entry scenario (mkWood 350 17.0) ("Муссон 600", mkFurnace 125 3 133)).
  split; [exact Hrun |].
  split; [rewrite Hall; apply in_map; cbn [MUSSON_MODELS In]; auto 6 |].
  split; [rewrite Hall; apply in_map; cbn [MUSSON_MODELS In]; auto 6 |].
  split; [exact Hrec |]. split; [reflexivity |]. split; [reflexivity |].
  rewrite !model_entry_avg by (cbn; lra).
  cbn [snd volume_l]. unfold unit_power, scenario.
  cbn [fill_fraction efficiency burn_hours density q_mj_kg].
  assert (Hinv : / wall_r_val out = 8100 / 5377).
  { replace (wall_r_val out) with (5377 / 8100) by lra. field. }
  unfold Rdiv in Hhl. rewrite Hinv in Hhl.
  split; [rewrite Hreq, Hhl |]; lra.
Qed.

(** ** The cascade suggestion *)

Lemma max_from_spec {A : Type} (key : A -> R) (xs : list A) :
  forall best,
    In (max_from key best xs) (best :: xs)
    /\ forall x, In x (best :: xs) -> key x <= key (max_from key best xs).
Proof.
  induction xs as [| y xs IH]; intros best.
  - cbn. split; [left; reflexivity |]. intros x [<- | []]. lra.
  - cbn [max_from]. destruct (gtb (key y) (key best)) eqn:Hgt.
    + apply gtb_true_iff in Hgt. destruct (IH y) as [Hin Hmax]. split.
      * right. exact Hin.
      * intros x [<- | Hx]; [| apply Hmax; exact Hx].
        specialize (Hmax y (or_introl eq_refl)). lra.
    + apply gtb_false_iff in Hgt. destruct (IH best) as [Hin Hmax]. split.
      * destruct Hin as [Hin | Hin]; [left; exact Hin | right; right; exact Hin].
      * intros x [<- | [<- | Hx]].
        -- apply Hmax. left. reflexivity.
        -- specialize (Hmax best (or_introl eq_refl)). lra.
        -- apply Hmax. right. exact Hx.
Qed.

Lemma max_by_Ret_inv {A : Type} (key : A -> R) (xs : list A) (x : A) :
  max_by key xs = Ret x -> In x xs /\ forall y, In y xs -> key y <= key x.
Proof.
  destruct xs as [| b xs]; cbn [max_by]; intros H; inversion H.
  apply max_from_spec.
Qed.

Lemma cascade_logic_Some_inv (st : LoopState) (hl req : R) (n : Z) (m : string) :
  cascade_logic st hl req = Ret (Some (n, m)) ->
  truthy (recommended_model st) = false
  /\ 0 < hl
  /\ exists mp,
       max_by avg_power (all_models_data st) = Ret mp
       /\ model mp = m
       /\ 0 < avg_power mp
       /\ n = math_ceil (req / avg_power mp)
       /\ (1 < n)%Z.
Proof.
  unfold cascade_logic.
  destruct (truthy (recommended_model st)); cbn [negb andb]; [discriminate |].
  destruct (gtb hl 0) eqn:Hhl; [| discriminate].
  apply gtb_true_iff in Hhl. intros H.
  apply bind_Ret_inv in H. destruct H as (mp & Hmp & H).
  destruct (gtb (avg_power mp) 0) eqn:Hpos; [| discriminate].
  apply gtb_true_iff in Hpos. rewrite div_ok in H by lra. cbn [bind] in H.
  destruct (1 <? math_ceil (req / avg_power mp))%Z eqn:Hn; [| discriminate].
  apply Z.ltb_lt in Hn. inversion H. subst n m.
  split; [reflexivity |]. split; [exact Hhl |].
  exists mp. auto.
Qed.

Lemma run_recommended_name (inp : Inputs) (out : Outputs) (m : string) :
  run inp = Ret out -> recommended_model (selection out) = Some m ->
  In m (map fst MUSSON_MODELS).
Proof.
  intros Hrun Hrec. destruct (run_selection inp out Hrun) as [Hds Hinv].
  destruct (selection_inv_recommended_In _ _ m Hinv Hrec) as (d & Hin & Hm & _).
  rewrite <- (Forall2_data_of_names inp _ _ Hds), <- Hm. apply in_map. exact Hin.
Qed.

Lemma run_truthy (inp : Inputs) (out : Outputs) :
  run inp = Ret out ->
  truthy (recommended_model (selection out)) = false ->
  recommended_model (selection out) = None.
Proof.
  intros Hrun Ht. destruct (recommended_model (selection out)) as [m |] eqn:Hrec;
    [| reflexivity].
  pose proof (run_recommended_name inp out m Hrun Hrec) as Hname.
  apply MUSSON_MODELS_names_nonempty in Hname.
  cbn [truthy] in Ht. rewrite Hname in Ht. discriminate.
Qed.


(** When a cascade is offered the script variable [best_model_avg_power]
    still holds its initial 0: the power the cascade count is computed from
    is that of [most_powerful], not this variable. *)
Lemma cascade_best_variable (inp : Inputs) (out : Outputs) (n : Z) (m : string) :
  run inp = Ret out ->
  cascade_option out = Some (n, m) ->
  best_model_avg_power (selection out) = 0.
Proof.
  intros Hrun Hc.
  destruct (run_Ret_inv inp out Hrun) as (_ & _ & _ & _ & Hcascade & _).
  destruct (run_selection inp out Hrun) as [_ Hinv].
  rewrite Hc in Hcascade. apply cascade_logic_Some_inv in Hcascade.
  destruct Hcascade as (Ht & _).
  apply (run_truthy inp out Hrun) in Ht.
  unfold selection_inv in Hinv. rewrite Ht in Hinv. tauto.
Qed.

(** The converse: without a recommended model, with a positive heat loss
    and some model of positive average power, a cascade is offered. *)
Lemma cascade_offered (inp : Inputs) (out : Outputs) (d : ModelData) :
  run inp = Ret out ->
  recommended_model (selection out) = None ->
  0 < heat_loss_kw out ->
  In d (all_models_data (selection out)) -> 0 < avg_power d ->
  exists n m, cascade_option out = Some (n, m).
Proof.
  intros Hrun Hrec Hhl Hd Hpos.
  destruct (run_Ret_inv inp out Hrun) as (_ & _ & Hreq & _ & Hcascade & _).
  destruct (run_selection inp out Hrun) as [_ Hinv].
  unfold selection_inv in Hinv. rewrite Hrec in Hinv. destruct Hinv as [_ Hnone].
  unfold cascade_logic in Hcascade. rewrite Hrec in Hcascade.
  assert (Hgt : gtb (heat_loss_kw out) 0 = true) by (apply gtb_true_iff; exact Hhl).
  rewrite Hgt in Hcascade. cbn [truthy negb andb] in Hcascade.
  destruct (max_by avg_power (all_models_data (selection out))) as [mp |] eqn:Hmp;
    [| discriminate].
  cbn [bind] in Hcascade.
  apply max_by_Ret_inv in Hmp. destruct Hmp as [Hin Hmax].
  pose proof (Hmax d Hd) as Hdmp.
  assert (Hmp_pos : gtb (avg_power mp) 0 = true) by (apply gtb_true_iff; lra).
  rewrite Hmp_pos in Hcascade. rewrite div_ok in Hcascade by lra.
  cbn [bind] in Hcascade.
  assert (Hlt : avg_power mp < required_power_with_margin out).
  { apply Rnot_le_lt. intros Hq. specialize (Hnone mp Hin Hq). lra. }
  assert (Hn : (1 <? math_ceil (required_power_with_margin out / avg_power mp))%Z
               = true).
  { apply Z.ltb_lt. apply lt_IZR.
    destruct (Zceil_bound (required_power_with_margin out / avg_power mp))
      as [_ Hceil].
    unfold math_ceil. apply Rlt_le_trans with (2 := Hceil).
    apply Rmult_lt_reg_r with (avg_power mp); [lra |].
    replace (required_power_with_margin out / avg_power mp * avg_power mp)
      with (required_power_with_margin out) by (field; lra).
    lra. }
  rewrite Hn in Hcascade. inversion Hcascade. eauto.
Qed.



(** ** The refuel time *)

Lemma refuel_walk_combine (req : R) :
  forall (ts ps : list R) (r0 : R),
    List.length ts = List.length ps ->
    exists n,
      (n <= List.length ts)%nat
      /\ (forall j p, (j < n)%nat -> nth_error ps j = Some p -> req <= p)
      /\ (forall p, nth_error ps n = Some p -> p < req)
      /\ (n = 0%nat -> refuel_walk req (combine ts ps) r0 = r0)
      /\ (forall k, n = S k ->
                    nth_error ts k = Some (refuel_walk req (combine ts ps) r0)).
Proof.
  induction ts as [| t ts IH]; intros ps r0 Hlen.
  - destruct ps; [| discriminate]. exists 0%nat. cbn.
    repeat split; try lia; try discriminate.
  - destruct ps as [| p ps]; [discriminate |]. injection Hlen as Hlen.
    cbn [combine refuel_walk]. destruct (geb p req) eqn:Hp.
    + apply geb_true_iff in Hp.
      destruct (IH ps t Hlen) as (n & Hn & Hbefore & Hat & Hzero & Hsucc).
      exists (S n). cbn [List.length]. split; [lia |]. split; [| split; [| split]].
      * intros j q Hj Hq. destruct j as [| j].
        -- cbn in Hq. inversion Hq. subst q. exact Hp.
        -- cbn in Hq. apply (Hbefore j); [lia | exact Hq].
      * intros q Hq. cbn in Hq. apply Hat. exact Hq.
      * discriminate.
      * intros k Hk. injection Hk as <-. destruct n as [| n].
        -- rewrite Hzero by reflexivity. reflexivity.
        -- cbn [nth_error]. apply Hsucc. reflexivity.
    + apply geb_false_iff in Hp. exists 0%nat. cbn [List.length].
      split; [lia |]. split; [| split; [| split]].
      * intros j q Hj. lia.
      * intros q Hq. cbn in Hq. inversion Hq. subst q. exact Hp.
      * reflexivity.
      * discriminate.
Qed.

Lemma sample_times_nth_error (bh : R) (j : nat) (t : R) :
  nth_error (sample_times bh) j = Some t -> t = INR j * 0.5.
Proof.
  unfold sample_times, range. rewrite map_map. intros H.
  assert (Hj : (j < Z.to_nat (int (bh * 2) + 1))%nat).
  { assert (Hsome : nth_error
                      (map (fun n => IZR (Z.of_nat n) * 0.5)
                         (seq 0 (Z.to_nat (int (bh * 2) + 1)))) j <> None)
      by (rewrite H; discriminate).
    apply nth_error_Some in Hsome. rewrite length_map, length_seq in Hsome.
    exact Hsome. }
  apply (nth_error_nth _ _ (IZR (Z.of_nat 0) * 0.5)) in H.
  rewrite (map_nth (fun n => IZR (Z.of_nat n) * 0.5)) in H.
  rewrite seq_nth in H by exact Hj. cbn [Nat.add] in H.
  rewrite INR_IZR_INZ. symmetry. exact H.
Qed.

(** On a run that recommends a model, the entry [next] finds is the closed
    form of that model's entry, and the refuel time is the walk over it. *)
Lemma run_recommended_entry (inp : Inputs) (out : Outputs) (m : string) :
  run inp = Ret out -> recommended_model (selection out) = Some m ->
  exists w item,
    lookup WOOD_TYPES (wood_type inp) = Some w
    /\ 0 < burn_hours inp
    /\ fst item = m
    /\ In (model_entry inp w item) (all_models_data (selection out))
    /\ 0 < avg_power (model_entry inp w item)
    /\ required_power_with_margin out <= avg_power (model_entry inp w item)
    /\ refuel_time out =
       Some (refuel_walk (required_power_with_margin out)
               (combine (time (model_entry inp w item))
                  (power (model_entry inp w item))) 0).
Proof.
  intros Hrun Hrec.
  destruct (run_Ret_inv inp out Hrun) as (_ & _ & _ & _ & _ & Hrefuel).
  destruct (run_selection inp out Hrun) as [Hds Hinv].
  destruct (selection_inv_recommended_In _ _ m Hinv Hrec)
    as (d & Hin & Hm & Hpos & Hq & _).
  destruct (Forall2_In_r _ _ _ d Hds Hin) as (item & _ & Hd).
  destruct (data_of_avg_pos inp item d Hd Hpos) as (Hbh & w & Hw).
  pose proof (data_of_model_entry inp w item d Hw Hbh Hd) as Heq. subst d.
  exists w, item. repeat split; try assumption.
  unfold refuel_logic in Hrefuel. rewrite Hrec in Hrefuel.
  pose proof (run_recommended_name inp out m Hrun Hrec) as Hname.
  apply MUSSON_MODELS_names_nonempty in Hname.
  cbn [truthy] in Hrefuel. rewrite Hname in Hrefuel. cbn [negb] in Hrefuel.
  unfold next_such in Hrefuel.
  destruct (find _ (all_models_data (selection out))) as [d' |] eqn:Hfind;
    [| discriminate].
  apply find_some in Hfind. destruct Hfind as [Hin' Hm'].
  apply String.eqb_eq in Hm'.
  assert (Heq : d' = model_entry inp w item).
  { apply (NoDup_map_eq model (all_models_data (selection out))); try assumption.
    - rewrite (Forall2_data_of_names inp _ _ Hds). apply MUSSON_MODELS_names_NoDup.
    - congruence. }
  subst d'. cbn [bind] in Hrefuel. inversion Hrefuel. reflexivity.
Qed.

Lemma model_entry_first_sample (inp : Inputs) (w : Wood) (item : string * FurnaceParams) :
  0 < burn_hours inp -> 0 < avg_power (model_entry inp w item) ->
  nth_error (power (model_entry inp w item)) 0
  = Some (2 * avg_power (model_entry inp w item)).
Proof.
  intros Hbh Hpos. unfold model_entry in *. cbn [power avg_power] in *.
  unfold sample_times.
  destruct (sample_times_head (burn_hours inp)) as [rest ->]; [lra |].
  cbn [map nth_error]. f_equal.
  replace (0 * 0.5 / burn_hours inp) with 0 by (field; lra).
  rewrite max0_of_nonneg by lra. lra.
Qed.

(** C6.  On a run that recommends a model, the refuel time is the sample
    time of index [k] of that model's curve, where the samples of index 0
    to [k] are all at least the required load and [k] is the largest such
    index: the sample after it, if any, is below the load.  Sample times
    grow with the index (index [j] is at [j * 0.5] hours), so this is the
    largest such sample time. *)
Theorem refuel_time_spec (inp : Inputs) (out : Outputs) (m : string) :
  run inp = Ret out -> recommended_model (selection out) = Some m ->
  exists d k t,
    In d (all_models_data (selection out))
    /\ model d = m
    /\ refuel_time out = Some t
    /\ List.length (time d) = List.length (power d)
    /\ (forall j tj, nth_error (time d) j = Some tj -> tj = INR j * 0.5)
    /\ nth_error (time d) k = Some t
    /\ (forall j p, (j <= k)%nat -> nth_error (power d) j = Some p ->
                    required_power_with_margin out <= p)
    /\ (forall p, nth_error (power d) (S k) = Some p ->
                  p < required_power_with_margin out)
    /\ (forall k', (k' < List.length (power d))%nat ->
                   (forall j p, (j <= k')%nat -> nth_error (power d) j = Some p ->
                                required_power_with_margin out <= p) ->
                   (k' <= k)%nat).
Proof.
  intros Hrun Hrec.
  destruct (run_recommended_entry inp out m Hrun Hrec)
    as (w & item & Hw & Hbh & Hm & Hin & Hpos & Hq & Hrefuel).
  set (d := model_entry inp w item) in *.
  set (req := required_power_with_margin out) in *.
  assert (Hlen : List.length (time d) = List.length (power d)).
  { unfold d, model_entry. cbn [time power]. rewrite length_map. reflexivity. }
  destruct (refuel_walk_combine req (time d) (power d) 0 Hlen)
    as (n & Hn & Hbefore & Hat & Hzero & Hsucc).
  pose proof (model_entry_first_sample inp w item Hbh Hpos) as Hfirst.
  fold d in Hfirst.
  destruct n as [| k].
  { specialize (Hat _ Hfirst). lra. }
  exists d, k, (refuel_walk req (combine (time d) (power d)) 0).
  split; [exact Hin |]. split; [exact Hm |]. split; [exact Hrefuel |].
  split; [exact Hlen |]. split.
  { intros j tj. unfold d, model_entry. cbn [time]. apply sample_times_nth_error. }
  split; [apply Hsucc; reflexivity |]. split.
  { intros j p Hj. apply Hbefore. lia. }
  split; [exact Hat |].
  intros k' Hk' Hall. destruct (Nat.le_gt_cases k' k) as [Hle | Hgt]; [exact Hle |].
  exfalso.
  destruct (nth_error (power d) (S k)) as [p |] eqn:Hp.
  - pose proof (Hat p eq_refl) as Hlt.
    assert (Hge : req <= p) by (apply (Hall (S k)); [lia | exact Hp]).
    lra.
  - apply nth_error_None in Hp. lia.
Qed.

Lemma refuel_time_spec_witness :
  exists out t,
    run scenario = Ret out
    /\ recommended_model (selection out) = Some "Муссон 2000"
    /\ refuel_time out = Some t
    /\ exists k, t = INR k * 0.5.
Proof.
  destruct scenario_run as (out & Hrun & _ & _ & _ & _ & Hrec).
  destruct (refuel_time_spec scenario out _ Hrun Hrec)
    as (d & k & t & _ & _ & Ht & _ & Htimes & Hk & _).
  exists out, t. split; [exact Hrun |]. split; [exact Hrec |].
  split; [exact Ht |]. exists k. apply Htimes. exact Hk.
Defined.

(** ** No heating needed *)

Lemma last_cons_default {A : Type} (ts : list A) :
  forall t r0, last (t :: ts) r0 = last ts t.
Proof.
  induction ts as [| a ts IH]; intros t r0; [reflexivity |].
  change (last (t :: a :: ts) r0) with (last (a :: ts) r0).
  rewrite (IH a r0), (IH a t). reflexivity.
Qed.

Lemma refuel_walk_all_above (req : R) :
  forall (ts ps : list R) (r0 : R),
    List.length ts = List.length ps ->
    (forall p, In p ps -> req <= p) ->
    refuel_walk req (combine ts ps) r0 = last ts r0.
Proof.
  induction ts as [| t ts IH]; intros ps r0 Hlen Hall.
  - reflexivity.
  - destruct ps as [| p ps]; [discriminate |]. injection Hlen as Hlen.
    cbn [combine refuel_walk].
    assert (Hp : geb p req = true)
      by (apply geb_true_iff, Hall; left; reflexivity).
    rewrite Hp. rewrite IH; [| exact Hlen | intros q Hq; apply Hall; right; exact Hq].
    symmetry. apply last_cons_default.
Qed.

(** C10.  With [t_in <= t_out], a known wood, positive fill fraction and
    efficiency and a burn duration that is a positive multiple of half an
    hour, the run returns with heat loss 0 and required load 0; it
    recommends "Муссон 2000", whose entry has the greatest average power of
    the catalog; no cascade is offered; and the refuel time is the last
    sample time, which is the burn duration. *)
Theorem no_heating_run (inp : Inputs) (w : Wood) (k : Z) :
  t_in inp <= t_out inp ->
  lookup WOOD_TYPES (wood_type inp) = Some w ->
  0 < fill_fraction inp -> 0 < efficiency inp ->
  (0 < k)%Z -> burn_hours inp = IZR k * 0.5 ->
  exists out d,
    run inp = Ret out
    /\ heat_loss_kw out = 0
    /\ required_power_with_margin out = 0
    /\ recommended_model (selection out) = Some "Муссон 2000"
    /\ In d (all_models_data (selection out))
    /\ model d = "Муссон 2000"
    /\ (forall d', In d' (all_models_data (selection out)) ->
                   avg_power d' <= avg_power d)
    /\ cascade_option out = None
    /\ last (time d) 0 = burn_hours inp
    /\ refuel_time out = Some (burn_hours inp).
Proof.
  intros Hdt Hw Hf He Hk Hbh_eq.
  assert (Hk' : 0 < IZR k) by (apply (IZR_lt 0); exact Hk).
  assert (Hbh : 0 < burn_hours inp) by (rewrite Hbh_eq; lra).
  destruct (run_total inp w Hw Hbh) as [out Hrun]; [left; lra |].
  destruct (run_Ret_inv inp out Hrun) as (_ & Hhl & Hreq & _ & Hcascade & _).
  rewrite calculate_heat_loss_no_heating in Hhl by lra.
  assert (Hhl0 : heat_loss_kw out = 0) by (inversion Hhl; reflexivity).
  assert (Hreq0 : required_power_with_margin out = 0) by (rewrite Hreq, Hhl0; lra).
  pose proof (unit_power_pos inp w Hw Hf He Hbh) as Hc.
  assert (Hrec : recommended_model (selection out) = Some "Муссон 2000").
  { apply (run_recommended_largest inp out w Hrun Hw Hf He Hbh). rewrite Hreq0. lra. }
  pose proof (run_all_models_data inp out w Hrun Hw Hbh) as Hall.
  set (top := ("Муссон 2000", mkFurnace 467 4 159)).
  assert (Hlast : last (time (model_entry inp w top)) 0 = burn_hours inp).
  { unfold model_entry. cbn [time]. unfold sample_times.
    replace (burn_hours inp * 2) with (IZR k) by (rewrite Hbh_eq; lra).
    rewrite int_IZR, sample_times_last by lia. symmetry. exact Hbh_eq. }
  exists out, (model_entry inp w top).
  split; [exact Hrun |]. split; [exact Hhl0 |]. split; [exact Hreq0 |].
  split; [exact Hrec |].
  split; [rewrite Hall; apply in_map; cbn [MUSSON_MODELS In]; auto 6 |].
  split; [reflexivity |]. split; [| split; [| split; [exact Hlast |]]].
  - intros d' Hd'. rewrite Hall in Hd'. apply in_map_iff in Hd'.
    destruct Hd' as (item & <- & Hitem). rewrite !model_entry_avg by exact Hbh.
    cbn [MUSSON_MODELS In] in Hitem.
    repeat destruct Hitem as [Hitem | Hitem]; try contradiction; subst item;
      cbn [snd volume_l top]; lra.
  - destruct (cascade_option out) as [[n m] |] eqn:Hc'; [| reflexivity].
    apply cascade_logic_Some_inv in Hcascade. destruct Hcascade as [Ht _].
    rewrite Hrec in Ht. discriminate Ht.
  - destruct (run_recommended_entry inp out _ Hrun Hrec)
      as (w' & item & Hw' & _ & Hm & Hin & _ & _ & Hrefuel).
    assert (w' = w) by congruence. subst w'.
    assert (Hitem : model_entry inp w item = model_entry inp w top).
    { destruct (run_selection inp out Hrun) as [Hds _].
      apply (NoDup_map_eq model (all_models_data (selection out))).
      - rewrite (Forall2_data_of_names inp _ _ Hds). apply MUSSON_MODELS_names_NoDup.
      - exact Hin.
      - rewrite Hall. apply in_map. cbn [MUSSON_MODELS In]. auto 6.
      - exact Hm. }
    rewrite Hitem in Hrefuel. rewrite Hrefuel. f_equal.
    rewrite refuel_walk_all_above.
    + exact Hlast.
    + unfold model_entry. cbn [time power]. rewrite length_map. reflexivity.
    + intros p Hp. unfold model_entry in Hp. cbn [power] in Hp.
      apply in_map_iff in Hp. destruct Hp as (t & <- & _).
      rewrite Hreq0. apply max0_nonneg.
Qed.

Lemma no_heating_run_witness :
  exists out,
    run warm_scenario = Ret out
    /\ recommended_model (selection out) = Some "Муссон 2000"
    /\ cascade_option out = None
    /\ refuel_time out = Some 8.
Proof.
  destruct (no_heating_run warm_scenario (mkWood 350 17.0) 16)
    as (out & d & Hrun & _ & _ & Hrec & _ & _ & _ & Hc & _ & Hrefuel).
  - cbn. lra.
  - reflexivity.
  - cbn. lra.
  - cbn. lra.
  - lia.
  - cbn. lra.
  - exists out. split; [exact Hrun |]. split; [exact Hrec |].
    split; [exact Hc | exact Hrefuel].
Defined.

(** * Further properties of the engineering functions *)

(** ** Heat loss: monotonicity and failure modes *)



(** Better insulation never increases the loss: raising any of the three
    resistances, the others not lowered, gives a loss that is not greater. *)
Theorem calculate_heat_loss_antitone_resistance
    (area height rw rf rc rw' rf' rc' ti to : R) :
  0 < area -> 0 < height -> 0 < rw -> 0 < rf -> 0 < rc ->
  rw <= rw' -> rf <= rf' -> rc <= rc' ->
  exists q q',
    calculate_heat_loss area height rw rf rc ti to = Ret q
    /\ calculate_heat_loss area height rw' rf' rc' ti to = Ret q'
    /\ q' <= q.
Proof.
  intros Ha Hh Hw Hf Hc Hw' Hf' Hc'.
  destruct (Rle_dec (ti - to) 0) as [H0 | H0].
  - exists 0, 0. rewrite !calculate_heat_loss_no_heating by assumption.
    repeat split; try reflexivity; lra.
  - apply Rnot_le_lt in H0. eexists. eexists.
    rewrite !calculate_heat_loss_heating by lra.
    split; [reflexivity |]. split; [reflexivity |].
    pose proof (sqrt_pos area) as Hs.
    assert (Hn1 : 0 <= 4 * sqrt area * height * (ti - to))
      by (repeat apply Rmult_le_pos; lra).
    assert (Hn2 : 0 <= area * (ti - to)) by (apply Rmult_le_pos; lra).
    assert (H1 : 4 * sqrt area * height * (ti - to) / rw'
                 <= 4 * sqrt area * height * (ti - to) / rw).
    { apply Rmult_le_compat_l; [exact Hn1 |]. apply Rinv_le_contravar; lra. }
    assert (H2 : area * (ti - to) / rf' <= area * (ti - to) / rf).
    { apply Rmult_le_compat_l; [exact Hn2 |]. apply Rinv_le_contravar; lra. }
    assert (H3 : area * (ti - to) / rc' <= area * (ti - to) / rc).
    { apply Rmult_le_compat_l; [exact Hn2 |]. apply Rinv_le_contravar; lra. }
    lra.
Qed.

Lemma calculate_heat_loss_antitone_resistance_witness :
  exists q q',
    calculate_heat_loss 100 2.5 1 2.5 3.5 22 (-20) = Ret q
    /\ calculate_heat_loss 100 2.5 2 2.5 3.5 22 (-20) = Ret q'
    /\ q' <= q.
Proof.
  apply (calculate_heat_loss_antitone_resistance 100 2.5 1 2.5 3.5 2 2.5 3.5 22 (-20));
    lra.
Defined.

(** The failure modes of the heat loss when heating is needed: a negative
    area raises [ValueError] in [math.sqrt]; with a non-negative area a zero
    resistance raises [ZeroDivisionError]; otherwise the function returns.
    When no heating is needed it returns 0 before looking at either. *)
Theorem calculate_heat_loss_failure_modes (area height rw rf rc ti to : R) :
  (ti - to <= 0 -> calculate_heat_loss area height rw rf rc ti to = Ret 0)
  /\ (0 < ti - to -> area < 0 ->
      calculate_heat_loss area height rw rf rc ti to = Raise ValueError)
  /\ (0 < ti - to -> 0 <= area -> rw = 0 \/ rf = 0 \/ rc = 0 ->
      calculate_heat_loss area height rw rf rc ti to = Raise ZeroDivisionError)
  /\ (0 < ti - to -> 0 <= area -> rw <> 0 -> rf <> 0 -> rc <> 0 ->
      exists q, calculate_heat_loss area height rw rf rc ti to = Ret q).
Proof.
  split; [apply calculate_heat_loss_no_heating |].
  split; [| split].
  - intros Hdt Ha. unfold calculate_heat_loss.
    apply leb_false_iff in Hdt. rewrite Hdt.
    unfold math_sqrt. destruct (Rlt_dec area 0); [reflexivity | contradiction].
  - intros Hdt Ha Hz. unfold calculate_heat_loss.
    apply leb_false_iff in Hdt. rewrite Hdt.
    rewrite math_sqrt_ok by exact Ha. cbn [bind].
    unfold div at 1. destruct (Req_dec_T rw 0) as [Hw | Hw]; [reflexivity |].
    cbn [bind]. unfold div at 1.
    destruct (Req_dec_T rf 0) as [Hf | Hf]; [reflexivity |].
    cbn [bind]. unfold div at 1.
    destruct (Req_dec_T rc 0) as [Hc | Hc]; [reflexivity |].
    exfalso. tauto.
  - intros Hdt Ha Hw Hf Hc. eexists.
    apply calculate_heat_loss_heating; assumption.
Qed.

(** ** Wall resistance: which thickness counts *)

(** The function returns for every material name and every pair of
    thicknesses.  For a homogeneous wall the result grows with the wall
    thickness and ignores the wool thickness; for the layered wall it grows
    with the wool thickness and ignores the wall thickness. *)
Theorem calculate_wall_r_value_thickness (m : string) (th th' wool wool' : R) :
  exists r r',
    calculate_wall_r_value m th wool = Ret r
    /\ calculate_wall_r_value m th' wool' = Ret r'
    /\ (m <> COMPOSITE -> (th <= th' -> r <= r') /\ (th = th' -> r = r'))
    /\ (m = COMPOSITE -> (wool <= wool' -> r <= r') /\ (wool = wool' -> r = r')).
Proof.
  destruct (String.eqb m COMPOSITE) eqn:Hm.
  - apply String.eqb_eq in Hm. subst m.
    rewrite !calculate_wall_r_value_composite. eexists. eexists.
    split; [reflexivity |]. split; [reflexivity |]. split.
    + intros Hne. contradiction.
    + intros _. split; intros H; [| subst; reflexivity].
      assert (wool / 0.045 <= wool' / 0.045)
        by (apply Rmult_le_compat_r; lra).
      lra.
  - rewrite !calculate_wall_r_value_homogeneous by exact Hm. eexists. eexists.
    split; [reflexivity |]. split; [reflexivity |]. split.
    + intros _. split; intros H; [| subst; reflexivity].
      pose proof (MATERIALS_positive m) as Hpos.
      assert (th / get MATERIALS m 0.81 <= th' / get MATERIALS m 0.81).
      { apply Rmult_le_compat_r; [| exact H].
        apply Rlt_le, Rinv_0_lt_compat. exact Hpos. }
      lra.
    + intros Heq. apply String.eqb_neq in Hm. contradiction.
Qed.

(** ** The burn curve: failure modes and shape *)

Lemma get_furnace_power_curve_nonzero (v f : R) (name : string) (w : Wood) (e bh : R) :
  lookup WOOD_TYPES name = Some w -> bh <> 0 ->
  get_furnace_power_curve v f name e bh =
  Ret (sample_times bh,
       map (fun t =>
              max0 ((if gtb bh 0
                     then v / 1000 * f * density w * q_mj_kg w / 3.6 * e / bh
                     else 0) * 2 * (1 - t / bh)))
           (sample_times bh),
       v / 1000 * f * density w * q_mj_kg w / 3.6 * e).
Proof.
  intros Hw Hbh. unfold get_furnace_power_curve.
  rewrite div_ok by lra. cbn [bind].
  rewrite (getitem_Some _ _ _ Hw). cbn [bind].
  rewrite div_ok by lra. cbn [bind].
  destruct (gtb bh 0); [rewrite div_ok by exact Hbh |]; cbn [bind];
    (erewrite mapM_pure; [reflexivity |]);
    intros t _; apply power_sample_ok; exact Hbh.
Qed.



Lemma max0_monotone (x y : R) : x <= y -> max0 x <= max0 y.
Proof. intros H. unfold max0. destruct (Rlt_dec 0 x); destruct (Rlt_dec 0 y); lra. Qed.

Lemma max0_of_nonpos (x : R) : x <= 0 -> max0 x = 0.
Proof. intros H. unfold max0. destruct (Rlt_dec 0 x); lra. Qed.

Lemma sample_times_length (bh : R) :
  0 <= bh -> List.length (sample_times bh) = S (Z.to_nat (Zfloor (bh * 2))).
Proof.
  intros Hbh. unfold sample_times. rewrite length_map, range_length.
  unfold int. destruct (Rle_dec 0 (bh * 2)); [| lra].
  assert (0 <= Zfloor (bh * 2))%Z by (apply Zfloor_lub; simpl; lra).
  lia.
Qed.

Lemma sample_times_in_duration (bh : R) (j : nat) (t : R) :
  0 <= bh -> nth_error (sample_times bh) j = Some t -> 0 <= t <= bh.
Proof.
  intros Hbh Hj. pose proof (sample_times_nth_error bh j t Hj) as Ht.
  assert (Hlt : (j < List.length (sample_times bh))%nat)
    by (apply nth_error_Some; rewrite Hj; discriminate).
  rewrite sample_times_length in Hlt by exact Hbh.
  assert (H0 : (0 <= Zfloor (bh * 2))%Z) by (apply Zfloor_lub; simpl; lra).
  assert (Hj' : IZR (Z.of_nat j) <= IZR (Zfloor (bh * 2))) by (apply IZR_le; lia).
  destruct (Zfloor_bound (bh * 2)) as [Hfl _].
  rewrite <- INR_IZR_INZ in Hj'. pose proof (pos_INR j). lra.
Qed.

(** For a positive duration the sample times are [j * 0.5] for
    [j = 0 .. floor(2 * duration)]: as many powers as times, every time
    within [0, duration], and the last one less than half an hour before
    the end of the burn. *)
Theorem get_furnace_power_curve_times (v f : R) (name : string) (w : Wood) (e bh : R) :
  0 < bh -> lookup WOOD_TYPES name = Some w ->
  exists ts ps total,
    get_furnace_power_curve v f name e bh = Ret (ts, ps, total)
    /\ List.length ts = S (Z.to_nat (Zfloor (bh * 2)))
    /\ List.length ps = List.length ts
    /\ (forall j t, nth_error ts j = Some t -> t = INR j * 0.5 /\ 0 <= t <= bh)
    /\ bh - 0.5 < last ts 0 <= bh.
Proof.
  intros Hbh Hw.
  rewrite (get_furnace_power_curve_nonzero v f name w e bh Hw) by lra.
  eexists. eexists. eexists. split; [reflexivity |].
  split; [apply sample_times_length; lra |].
  split; [apply length_map |]. split.
  - intros j t Hj. split; [apply (sample_times_nth_error bh); exact Hj |].
    apply (sample_times_in_duration bh j); [lra | exact Hj].
  - unfold sample_times, int. destruct (Rle_dec 0 (bh * 2)); [| lra].
    assert (H0 : (0 <= Zfloor (bh * 2))%Z) by (apply Zfloor_lub; simpl; lra).
    rewrite sample_times_last by exact H0.
    destruct (Zfloor_bound (bh * 2)) as [Hlo Hhi]. lra.
Qed.

Lemma get_furnace_power_curve_times_witness :
  exists ts ps total,
    get_furnace_power_curve 125 0.8 "Хвойные (сосна, ель)" 0.85 0.75 = Ret (ts, ps, total)
    /\ 0.75 - 0.5 < last ts 0 <= 0.75.
Proof.
  destruct (get_furnace_power_curve_times 125 0.8 "Хвойные (сосна, ель)"
              (mkWood 350 17.0) 0.85 0.75)
    as (ts & ps & total & Hrun & _ & _ & _ & Hlast); [lra | reflexivity |].
  exists ts, ps, total. split; [exact Hrun | exact Hlast].
Defined.

(** For a positive duration the power samples are never negative, never
    above [max(0, 2 * avg_power)], and never increase from one sample to the
    next, whatever the sign of the other inputs. *)
Theorem get_furnace_power_curve_powers (v f : R) (name : string) (w : Wood) (e bh : R) :
  0 < bh -> lookup WOOD_TYPES name = Some w ->
  exists ts ps total,
    get_furnace_power_curve v f name e bh = Ret (ts, ps, total)
    /\ (forall p, In p ps -> 0 <= p <= Rmax 0 (2 * (total / bh)))
    /\ (forall j p q, nth_error ps j = Some p -> nth_error ps (S j) = Some q ->
                      q <= p).
Proof.
  intros Hbh Hw.
  rewrite (get_furnace_power_curve_ok v f name w e bh Hw Hbh).
  eexists. eexists. eexists. split; [reflexivity |].
  set (total := v / 1000 * f * density w * q_mj_kg w / 3.6 * e).
  fold (sample_times bh).
  assert (Hfrac : forall j t, nth_error (sample_times bh) j = Some t ->
                              0 <= 1 - t / bh <= 1).
  { intros j t Hj. apply sample_times_in_duration in Hj; [| lra].
    assert (0 <= t / bh) by (apply Rle_mult_inv_pos; lra).
    replace (1 - t / bh) with ((bh - t) / bh) by (field; lra).
    split; [apply Rle_mult_inv_pos; lra |].
    replace ((bh - t) / bh) with (1 - t / bh) by (field; lra). lra. }
  split.
  - intros p Hp. apply in_map_iff in Hp. destruct Hp as (t & <- & Ht).
    apply In_nth_error in Ht. destruct Ht as [j Hj].
    specialize (Hfrac j t Hj). split; [apply max0_nonneg |].
    rewrite <- max0_Rmax.
    destruct (Rle_dec 0 (total / bh)) as [Hpos | Hneg].
    + apply max0_monotone. nra.
    + apply Rnot_le_lt in Hneg.
      rewrite max0_of_nonpos by nra. apply max0_nonneg.
  - intros j p q Hp Hq. rewrite nth_error_map in Hp, Hq.
    destruct (nth_error (sample_times bh) j) as [t |] eqn:Ht; [| discriminate].
    destruct (nth_error (sample_times bh) (S j)) as [t' |] eqn:Ht'; [| discriminate].
    cbn [option_map] in Hp, Hq. inversion Hp. inversion Hq. subst p q.
    pose proof (Hfrac j t Ht) as Hf. pose proof (Hfrac (S j) t' Ht') as Hf'.
    apply sample_times_nth_error in Ht. apply sample_times_nth_error in Ht'.
    rewrite S_INR in Ht'.
    assert (Hstep : 1 - t' / bh <= 1 - t / bh).
    { assert (t / bh <= t' / bh)
        by (apply Rmult_le_compat_r; [apply Rlt_le, Rinv_0_lt_compat; lra | lra]).
      lra. }
    destruct (Rle_dec 0 (total / bh)) as [Hpos | Hneg].
    + apply max0_monotone. nra.
    + apply Rnot_le_lt in Hneg.
      rewrite (max0_of_nonpos (total / bh * 2 * (1 - t' / bh))) by nra.
      apply max0_nonneg.
Qed.

Lemma get_furnace_power_curve_powers_witness :
  exists ts ps total,
    get_furnace_power_curve 125 0.8 "Хвойные (сосна, ель)" 0.85 8 = Ret (ts, ps, total)
    /\ forall p, In p ps -> 0 <= p.
Proof.
  destruct (get_furnace_power_curve_powers 125 0.8 "Хвойные (сосна, ель)"
              (mkWood 350 17.0) 0.85 8)
    as (ts & ps & total & Hrun & Hbound & _); [lra | reflexivity |].
  exists ts, ps, total. split; [exact Hrun |].
  intros p Hp. apply Hbound. exact Hp.
Defined.

(** A negative burn duration is not an error: the guarded average is 0, so
    every power sample is 0; there are no samples at all from -0.5 h down,
    and a single one between -0.5 h and 0. *)
Theorem get_furnace_power_curve_negative_duration
    (v f : R) (name : string) (w : Wood) (e bh : R) :
  bh < 0 -> lookup WOOD_TYPES name = Some w ->
  exists ts ps,
    get_furnace_power_curve v f name e bh =
      Ret (ts, ps, v / 1000 * f * density w * q_mj_kg w / 3.6 * e)
    /\ List.length ps = List.length ts
    /\ (forall p, In p ps -> p = 0)
    /\ (bh <= -0.5 -> ts = [])
    /\ (-0.5 < bh -> List.length ts = 1%nat).
Proof.
  intros Hbh Hw.
  rewrite (get_furnace_power_curve_nonzero v f name w e bh Hw) by lra.
  assert (Hgt : gtb bh 0 = false) by (apply gtb_false_iff; lra).
  rewrite Hgt. eexists. eexists. split; [reflexivity |].
  split; [apply length_map |]. split; [| split].
  - intros p Hp. apply in_map_iff in Hp. destruct Hp as (t & <- & _).
    apply max0_of_nonpos. lra.
  - intros Hlow. unfold sample_times, range, int.
    destruct (Rle_dec 0 (bh * 2)); [lra |].
    assert (Hc : (Zceil (bh * 2) <= -1)%Z).
    { rewrite <- (Zceil_eq (-1) (-1)) by (simpl; lra).
      apply Zceil_le. lra. }
    replace (Z.to_nat (Zceil (bh * 2) + 1)) with 0%nat by lia. reflexivity.
  - intros Hhigh. unfold sample_times, int.
    destruct (Rle_dec 0 (bh * 2)); [lra |].
    rewrite (Zceil_eq 0 (bh * 2)) by (simpl; lra). reflexivity.
Qed.

Lemma get_furnace_power_curve_negative_duration_witness :
  exists ps,
    get_furnace_power_curve 125 0.8 "Хвойные (сосна, ель)" 0.85 (-2) =
      Ret ([], ps, 125 / 1000 * 0.8 * 350 * 17.0 / 3.6 * 0.85).
Proof.
  destruct (get_furnace_power_curve_negative_duration 125 0.8 "Хвойные (сосна, ель)"
              (mkWood 350 17.0) 0.85 (-2))
    as (ts & ps & Hrun & _ & _ & Hnil & _); [lra | reflexivity |].
  exists ps. rewrite Hrun. rewrite Hnil by lra. reflexivity.
Defined.



Lemma sample_times_nth_error_lt (bh : R) (j : nat) :
  (j < List.length (sample_times bh))%nat ->
  nth_error (sample_times bh) j = Some (INR j * 0.5).
Proof.
  intros Hj. destruct (nth_error (sample_times bh) j) as [t |] eqn:Ht.
  - f_equal. apply (sample_times_nth_error bh). exact Ht.
  - apply nth_error_None in Ht. lia.
Qed.

(** For a burn of a whole number [n] of hours the sample of index [n] is
    taken at half the duration, and it is exactly the average power. *)
Theorem get_furnace_power_curve_half_time
    (v f : R) (name : string) (w : Wood) (e : R) (n : Z) :
  (0 < n)%Z -> lookup WOOD_TYPES name = Some w -> 0 <= v -> 0 <= f -> 0 <= e ->
  exists ts ps total,
    get_furnace_power_curve v f name e (IZR n) = Ret (ts, ps, total)
    /\ nth_error ts (Z.to_nat n) = Some (IZR n / 2)
    /\ nth_error ps (Z.to_nat n) = Some (total / IZR n).
Proof.
  intros Hn Hw Hv Hf He.
  assert (Hbh : 0 < IZR n) by (apply (IZR_lt 0); exact Hn).
  rewrite (get_furnace_power_curve_ok v f name w e (IZR n) Hw Hbh).
  eexists. eexists. eexists. split; [reflexivity |].
  pose proof (total_kwh_nonneg v f e name w Hw Hv Hf He) as Htot.
  set (total := v / 1000 * f * density w * q_mj_kg w / 3.6 * e) in *.
  fold (sample_times (IZR n)).
  assert (Hlen : (Z.to_nat n < List.length (sample_times (IZR n)))%nat).
  { rewrite sample_times_length by lra.
    replace (IZR n * 2) with (IZR (n * 2)) by (rewrite mult_IZR; reflexivity).
    rewrite ZfloorZ. lia. }
  assert (Hidx : INR (Z.to_nat n) * 0.5 = IZR n / 2).
  { rewrite INR_IZR_INZ, Z2Nat.id by lia. lra. }
  rewrite nth_error_map, (sample_times_nth_error_lt _ _ Hlen), Hidx.
  split; [reflexivity |]. cbn [option_map]. f_equal.
  assert (Havg : 0 <= total / IZR n) by (apply Rle_mult_inv_pos; assumption).
  replace (total / IZR n * 2 * (1 - IZR n / 2 / IZR n)) with (total / IZR n)
    by (field; lra).
  apply max0_of_nonneg. exact Havg.
Qed.

Lemma get_furnace_power_curve_half_time_witness :
  exists ts ps total,
    get_furnace_power_curve 125 0.8 "Хвойные (сосна, ель)" 0.85 (IZR 8) = Ret (ts, ps, total)
    /\ nth_error ts 8 = Some (IZR 8 / 2)
    /\ nth_error ps 8 = Some (total / IZR 8).
Proof.
  apply (get_furnace_power_curve_half_time 125 0.8 "Хвойные (сосна, ель)"
           (mkWood 350 17.0) 0.85 8); [lia | reflexivity | lra | lra | lra].
Defined.

(** * Further properties of the script *)

(** ** When the script runs to the end *)







(** ** On the values the widgets can produce *)

Lemma lookup_In_keys {V : Type} (d : dict V) (k : string) :
  In k (map fst d) -> exists v, lookup d k = Some v.
Proof.
  induction d as [| [k' v'] d IH]; intros Hin; [destruct Hin |].
  cbn [lookup]. destruct (String.eqb k k') eqn:Hk; [eexists; reflexivity |].
  apply IH. destruct Hin as [Heq | Hin]; [| exact Hin].
  cbn in Heq. subst k'. rewrite String.eqb_refl in Hk. discriminate.
Qed.

Lemma widget_inputs_well_formed (inp : Inputs) :
  widget_inputs inp ->
  0 < area inp /\ 0 < height inp /\ 5 <= thickness_cm inp <= 100
  /\ 5 <= t_in inp - t_out inp
  /\ (exists w, lookup WOOD_TYPES (wood_type inp) = Some w)
  /\ 0 < fill_fraction inp /\ 0 < efficiency inp
  /\ exists k : Z, (0 < k)%Z /\ burn_hours inp = IZR k * 0.5.
Proof.
  intros (Ha & Hh & _ & Hth & (zi & Hzi & Hti) & (zo & Hzo & Hto) & Hw
          & (zf & Hzf & Hf) & (ze & Hze & He) & Hbh).
  split; [lra |]. split; [lra |]. split; [| split; [| split; [| split; [| split]]]].
  - destruct (String.eqb (material_type inp) COMPOSITE).
    + cbn [In] in Hth. repeat destruct Hth as [Hth | Hth]; try contradiction; lra.
    + destruct Hth as (z & Hz & ->).
      assert (IZR 5 <= IZR z <= IZR 100) by (split; apply IZR_le; lia).
      simpl in *. lra.
  - rewrite Hti, Hto.
    assert (IZR 15 <= IZR zi) by (apply IZR_le; lia).
    assert (IZR zo <= IZR 10) by (apply IZR_le; lia).
    simpl in *. lra.
  - apply lookup_In_keys. exact Hw.
  - rewrite Hf. assert (IZR 50 <= IZR zf) by (apply IZR_le; lia). simpl in *. lra.
  - rewrite He. assert (IZR 70 <= IZR ze) by (apply IZR_le; lia). simpl in *. lra.
  - cbn [In] in Hbh.
    destruct Hbh as [H | [H | [H | [H | [H | [H | [H | []]]]]]]]; rewrite <- H.
    + exists 4%Z. split; [lia | lra].
    + exists 8%Z. split; [lia | lra].
    + exists 12%Z. split; [lia | lra].
    + exists 16%Z. split; [lia | lra].
    + exists 24%Z. split; [lia | lra].
    + exists 36%Z. split; [lia | lra].
    + exists 48%Z. split; [lia | lra].
Qed.

Lemma widget_inputs_scenario : widget_inputs scenario.
Proof.
  unfold widget_inputs, scenario.
  cbn [area height material_type thickness_cm t_in t_out wood_type fill_fraction
       efficiency burn_hours].
  split; [lra |]. split; [lra |]. split; [cbn; auto |].
  split; [cbn; exists 40%Z; split; [lia | reflexivity] |].
  split; [exists 22%Z; split; [lia | reflexivity] |].
  split; [exists (-20)%Z; split; [lia | reflexivity] |].
  split; [cbn; auto |].
  split; [exists 80%Z; split; [lia | lra] |].
  split; [exists 85%Z; split; [lia | lra] |].
  cbn. auto 8.
Qed.

Lemma widget_inputs_cold_scenario : widget_inputs cold_scenario.
Proof.
  unfold widget_inputs, cold_scenario.
  cbn [area height material_type thickness_cm t_in t_out wood_type fill_fraction
       efficiency burn_hours].
  split; [lra |]. split; [lra |]. split; [cbn; auto |].
  split; [cbn; exists 5%Z; split; [lia | reflexivity] |].
  split; [exists 70%Z; split; [lia | reflexivity] |].
  split; [exists (-50)%Z; split; [lia | reflexivity] |].
  split; [cbn; auto |].
  split; [exists 80%Z; split; [lia | lra] |].
  split; [exists 85%Z; split; [lia | lra] |].
  cbn. auto 8.
Qed.

Lemma run_heat_loss_positive (inp : Inputs) (out : Outputs) :
  run inp = Ret out -> 0 < area inp -> 0 < height inp ->
  0 <= thickness_cm inp -> 0 < t_in inp - t_out inp ->
  0.17 <= wall_r_val out /\ 0 < heat_loss_kw out.
Proof.
  intros Hrun Ha Hh Hth Hdt.
  destruct (run_Ret_inv inp out Hrun) as (Hwr & Hhl & _).
  destruct (calculate_wall_r_value_total (material_type inp) (thickness_cm inp / 100)
              (if String.eqb (material_type inp) COMPOSITE
               then thickness_cm inp / 100 else 0.05)) as (wr & Hwr' & Hge).
  { lra. }
  { destruct (String.eqb (material_type inp) COMPOSITE); lra. }
  rewrite Hwr' in Hwr. inversion Hwr as [Heq]. rewrite <- Heq in *.
  split; [exact Hge |].
  rewrite calculate_heat_loss_heating in Hhl by lra.
  inversion Hhl as [Hq].
  pose proof (sqrt_pos (area inp)) as Hs.
  assert (0 <= 4 * sqrt (area inp) * height inp * (t_in inp - t_out inp) / wr).
  { apply Rle_mult_inv_pos; [| lra]. repeat apply Rmult_le_pos; lra. }
  assert (0 < area inp * (t_in inp - t_out inp) / 2.5).
  { apply Rdiv_lt_0_compat; [| lra]. apply Rmult_lt_0_compat; lra. }
  assert (0 < area inp * (t_in inp - t_out inp) / 3.5).
  { apply Rdiv_lt_0_compat; [| lra]. apply Rmult_lt_0_compat; lra. }
  lra.
Qed.

(** On every combination of values the widgets can produce the script runs
    to the end without raising; the heat loss is positive, the wall
    resistance is at least 0.17 and the required load is the heat loss plus
    20 %. *)
Theorem run_widget_inputs_returns (inp : Inputs) :
  widget_inputs inp ->
  exists out,
    run inp = Ret out
    /\ 0.17 <= wall_r_val out
    /\ 0 < heat_loss_kw out
    /\ required_power_with_margin out = heat_loss_kw out * 1.2
    /\ List.length (all_models_data (selection out)) = 5%nat.
Proof.
  intros Hwid.
  destruct (widget_inputs_well_formed inp Hwid)
    as (Ha & Hh & Hth & Hdt & (w & Hw) & Hf & He & k & Hk & Hbh).
  assert (Hk' : 0 < IZR k) by (apply (IZR_lt 0); exact Hk).
  assert (Hbh' : 0 < burn_hours inp) by (rewrite Hbh; lra).
  destruct (run_total inp w Hw Hbh') as [out Hrun]; [right; lra |].
  exists out. split; [exact Hrun |].
  destruct (run_heat_loss_positive inp out Hrun) as [Hwr Hhl]; try lra.
  split; [exact Hwr |]. split; [exact Hhl |].
  destruct (run_Ret_inv inp out Hrun) as (_ & _ & Hreq & _).
  split; [exact Hreq |].
  rewrite (run_all_models_data inp out w Hrun Hw Hbh'). reflexivity.
Qed.

Lemma run_widget_inputs_returns_witness :
  exists out, run scenario = Ret out /\ 0 < heat_loss_kw out.
Proof.
  destruct (run_widget_inputs_returns scenario widget_inputs_scenario)
    as (out & Hrun & _ & Hhl & _).
  exists out. split; [exact Hrun | exact Hhl].
Defined.

(** ** What the script offers *)

Lemma catalog_max_is_top (c : R) (item : string * FurnaceParams) :
  0 < c -> In item MUSSON_MODELS ->
  467 * c <= volume_l (snd item) * c ->
  item = ("Муссон 2000", mkFurnace 467 4 159).
Proof.
  intros Hc Hitem Hle. cbn [MUSSON_MODELS In] in Hitem.
  repeat destruct Hitem as [Hitem | Hitem]; try contradiction; subst item;
    cbn [snd volume_l] in Hle; try lra.
  reflexivity.
Qed.

(** With a wood of the table and positive fill fraction, efficiency and
    burn duration, the only model the loop can recommend is the largest
    one: it recommends "Муссон 2000" exactly when that model's average
    power reaches the required load, and nothing otherwise.  A smaller
    model is never recommended, although it may qualify. *)
Theorem run_recommends_only_largest (inp : Inputs) (out : Outputs) (w : Wood) :
  run inp = Ret out ->
  lookup WOOD_TYPES (wood_type inp) = Some w ->
  0 < fill_fraction inp -> 0 < efficiency inp -> 0 < burn_hours inp ->
  let top_power :=
    467 / 1000 * fill_fraction inp * density w * q_mj_kg w / 3.6 * efficiency inp
    / burn_hours inp in
  (recommended_model (selection out) = Some "Муссон 2000"
   <-> required_power_with_margin out <= top_power)
  /\ (recommended_model (selection out) = None
      <-> top_power < required_power_with_margin out)
  /\ (forall m, recommended_model (selection out) = Some m -> m = "Муссон 2000").
Proof.
  intros Hrun Hw Hf He Hbh top_power.
  destruct (run_recommended_largest inp out w Hrun Hw Hf He Hbh) as [Hyes Hno].
  assert (Htop : top_power = 467 * unit_power inp w)
    by (unfold top_power, unit_power; field; lra).
  rewrite Htop.
  destruct (Rle_dec (required_power_with_margin out) (467 * unit_power inp w))
    as [Hle | Hgt].
  - specialize (Hyes Hle). rewrite Hyes. split; [| split].
    + split; [intros _; exact Hle | reflexivity].
    + split; [discriminate | intros; lra].
    + intros m Hm. inversion Hm. reflexivity.
  - apply Rnot_le_lt in Hgt. specialize (Hno Hgt). rewrite Hno. split; [| split].
    + split; [discriminate | intros; lra].
    + split; [intros _; exact Hgt | reflexivity].
    + intros m Hm. discriminate.
Qed.

Lemma run_recommends_only_largest_witness :
  exists out,
    run scenario = Ret out
    /\ forall m, recommended_model (selection out) = Some m -> m = "Муссон 2000".
Proof.
  destruct scenario_run as (out & Hrun & _).
  exists out. split; [exact Hrun |].
  apply (run_recommends_only_largest scenario out (mkWood 350 17.0) Hrun);
    [reflexivity | cbn; lra | cbn; lra | cbn; lra].
Defined.

Lemma run_cascade_model (inp : Inputs) (out : Outputs) (w : Wood) (n : Z) (m : string) :
  run inp = Ret out ->
  lookup WOOD_TYPES (wood_type inp) = Some w ->
  0 < fill_fraction inp -> 0 < efficiency inp -> 0 < burn_hours inp ->
  cascade_option out = Some (n, m) ->
  m = "Муссон 2000" /\ (2 <= n)%Z.
Proof.
  intros Hrun Hw Hf He Hbh Hc.
  destruct (run_Ret_inv inp out Hrun) as (_ & _ & _ & _ & Hcascade & _).
  rewrite Hc in Hcascade. apply cascade_logic_Some_inv in Hcascade.
  destruct Hcascade as (_ & _ & mp & Hmp & Hm & _ & _ & Hn).
  split; [| lia].
  apply max_by_Ret_inv in Hmp. destruct Hmp as [Hin Hmax].
  pose proof (run_all_models_data inp out w Hrun Hw Hbh) as Hall.
  rewrite Hall in Hin, Hmax.
  specialize (Hmax (model_entry inp w ("Муссон 2000", mkFurnace 467 4 159))).
  rewrite model_entry_avg in Hmax by exact Hbh. cbn [snd volume_l] in Hmax.
  apply in_map_iff in Hin. destruct Hin as (item & <- & Hitem).
  rewrite model_entry_avg in Hmax by exact Hbh.
  assert (Htop : item = ("Муссон 2000", mkFurnace 467 4 159)).
  { apply (catalog_max_is_top (unit_power inp w)).
    - apply unit_power_pos; assumption.
    - exact Hitem.
    - apply Hmax. apply in_map. cbn [MUSSON_MODELS In]. auto 6. }
  rewrite <- Hm, Htop. reflexivity.
Qed.

(** On every combination of values the widgets can produce the page offers
    exactly one of two things: a recommended model, which is "Муссон 2000",
    with a refuel time and no cascade; or no model, no refuel time and a
    cascade of at least two "Муссон 2000". *)
Theorem run_widget_inputs_offer (inp : Inputs) :
  widget_inputs inp ->
  exists out,
    run inp = Ret out
    /\ ((recommended_model (selection out) = Some "Муссон 2000"
         /\ cascade_option out = None
         /\ exists t, refuel_time out = Some t)
        \/ (recommended_model (selection out) = None
            /\ refuel_time out = None
            /\ exists n, cascade_option out = Some (n, "Муссон 2000") /\ (2 <= n)%Z)).
Proof.
  intros Hwid.
  destruct (widget_inputs_well_formed inp Hwid)
    as (Ha & Hh & Hth & Hdt & (w & Hw) & Hf & He & k & Hk & Hbh).
  assert (Hk' : 0 < IZR k) by (apply (IZR_lt 0); exact Hk).
  assert (Hbh' : 0 < burn_hours inp) by (rewrite Hbh; lra).
  destruct (run_total inp w Hw Hbh') as [out Hrun]; [right; lra |].
  exists out. split; [exact Hrun |].
  destruct (run_recommended_largest inp out w Hrun Hw Hf He Hbh') as [Hyes Hno].
  destruct (run_Ret_inv inp out Hrun) as (_ & _ & _ & _ & Hcascade & Hrefuel).
  destruct (Rle_dec (required_power_with_margin out) (467 * unit_power inp w))
    as [Hle | Hgt].
  - left. specialize (Hyes Hle). split; [exact Hyes |]. split.
    + destruct (cascade_option out) as [[n m] |] eqn:Hc; [| reflexivity].
      apply cascade_logic_Some_inv in Hcascade. destruct Hcascade as [Ht _].
      rewrite Hyes in Ht. discriminate Ht.
    + destruct (run_recommended_entry inp out _ Hrun Hyes)
        as (w' & item & _ & _ & _ & _ & _ & _ & Ht).
      eexists. exact Ht.
  - right. apply Rnot_le_lt in Hgt. specialize (Hno Hgt). split; [exact Hno |].
    split.
    + unfold refuel_logic in Hrefuel. rewrite Hno in Hrefuel.
      cbn [truthy] in Hrefuel. inversion Hrefuel. reflexivity.
    + destruct (run_heat_loss_positive inp out Hrun) as [_ Hhl]; try lra.
      destruct (cascade_offered inp out
                  (model_entry inp w ("Муссон 2000", mkFurnace 467 4 159))
                  Hrun Hno Hhl) as (n & m & Hc).
      { rewrite (run_all_models_data inp out w Hrun Hw Hbh').
        apply in_map. cbn [MUSSON_MODELS In]. auto 6. }
      { rewrite model_entry_avg by exact Hbh'. cbn [snd volume_l].
        pose proof (unit_power_pos inp w Hw Hf He Hbh'). lra. }
      destruct (run_cascade_model inp out w n m Hrun Hw Hf He Hbh' Hc) as [-> Hn].
      exists n. split; [exact Hc | exact Hn].
Qed.

Lemma run_widget_inputs_offer_witness :
  exists out,
    run cold_scenario = Ret out
    /\ ((recommended_model (selection out) = Some "Муссон 2000"
         /\ cascade_option out = None
         /\ exists t, refuel_time out = Some t)
        \/ (recommended_model (selection out) = None
            /\ refuel_time out = None
            /\ exists n, cascade_option out = Some (n, "Муссон 2000") /\ (2 <= n)%Z)).
Proof.
  apply (run_widget_inputs_offer cold_scenario widget_inputs_cold_scenario).
Defined.

(** ** The refuel time, the cascade count and the displayed power *)

Lemma max0_ge (x : R) : x <= max0 x.
Proof. unfold max0. destruct (Rlt_dec 0 x); lra. Qed.

(** On a run that recommends a model the refuel time is a sample time
    (a multiple of half an hour), it is at most the burn duration, and it
    is more than half the duration minus half an hour: a recommended
    furnace carries the load for about half of its burn at least. *)
Theorem refuel_time_bounds (inp : Inputs) (out : Outputs) (m : string) (t : R) :
  run inp = Ret out ->
  recommended_model (selection out) = Some m ->
  refuel_time out = Some t ->
  burn_hours inp / 2 - 0.5 < t <= burn_hours inp
  /\ exists k : nat, t = INR k * 0.5.
Proof.
  intros Hrun Hrec Ht.
  destruct (run_recommended_entry inp out m Hrun Hrec)
    as (w & item & Hw & Hbh & _ & _ & Hpos & Hq & Hrefuel).
  rewrite Hrefuel in Ht. inversion Ht as [Hwalk]. clear Ht.
  pose proof (model_entry_first_sample inp w item Hbh Hpos) as Hfirst.
  unfold model_entry in Hwalk, Hfirst, Hpos, Hq |- *.
  cbn [time power avg_power] in Hwalk, Hfirst, Hpos, Hq.
  set (bh := burn_hours inp) in *.
  set (a := volume_l (snd item) / 1000 * fill_fraction inp * density w * q_mj_kg w
            / 3.6 * efficiency inp / bh) in *.
  set (req := required_power_with_margin out) in *.
  set (ps := map (fun t0 => max0 (a * 2 * (1 - t0 / bh))) (sample_times bh)) in *.
  assert (Hlen : List.length (sample_times bh) = List.length ps)
    by (unfold ps; rewrite length_map; reflexivity).
  destruct (refuel_walk_combine req (sample_times bh) ps 0 Hlen)
    as (n & Hn & Hbefore & Hat & Hzero & Hsucc).
  destruct n as [| k]; [specialize (Hat _ Hfirst); lra |].
  specialize (Hsucc k eq_refl). rewrite Hwalk in Hsucc. rewrite Hwalk.
  pose proof (sample_times_nth_error bh k t Hsucc) as Htk.
  pose proof (sample_times_in_duration bh k t (Rlt_le _ _ Hbh) Hsucc) as Hrange.
  split; [| exists k; exact Htk].
  split; [| lra].
  assert (Hfl0 : (0 <= Zfloor bh)%Z) by (apply Zfloor_lub; simpl; lra).
  destruct (Zfloor_bound bh) as [Hfl_lo Hfl_hi].
  assert (Hk : (Z.to_nat (Zfloor bh) <= k)%nat).
  { destruct (Nat.le_gt_cases (Z.to_nat (Zfloor bh)) k) as [Hle | Hgt]; [exact Hle |].
    exfalso.
    assert (Hfl2 : (Zfloor bh <= Zfloor (bh * 2))%Z) by (apply Zfloor_le; lra).
    assert (Hin : (S k < List.length (sample_times bh))%nat).
    { rewrite sample_times_length by lra. lia. }
    pose proof (sample_times_nth_error_lt bh (S k) Hin) as Hts.
    assert (Hp : nth_error ps (S k)
                 = Some (max0 (a * 2 * (1 - INR (S k) * 0.5 / bh)))).
    { unfold ps. rewrite nth_error_map, Hts. reflexivity. }
    specialize (Hat _ Hp).
    assert (Hidx : INR (S k) <= bh).
    { apply Rle_trans with (IZR (Zfloor bh)); [| exact Hfl_lo].
      rewrite INR_IZR_INZ. apply IZR_le. lia. }
    assert (Hhalf : 1 / 2 <= 1 - INR (S k) * 0.5 / bh).
    { assert (INR (S k) * 0.5 / bh <= 1 / 2).
      { apply Rmult_le_reg_r with bh; [exact Hbh |].
        replace (INR (S k) * 0.5 / bh * bh) with (INR (S k) * 0.5) by (field; lra).
        lra. }
      lra. }
    pose proof (max0_ge (a * 2 * (1 - INR (S k) * 0.5 / bh))) as Hge.
    assert (a <= a * 2 * (1 - INR (S k) * 0.5 / bh)) by nra.
    lra. }
  assert (Hk' : IZR (Zfloor bh) <= INR k).
  { rewrite INR_IZR_INZ. apply IZR_le. lia. }
  lra.
Qed.

Lemma refuel_time_bounds_witness :
  exists out t,
    run scenario = Ret out
    /\ refuel_time out = Some t
    /\ 8 / 2 - 0.5 < t <= 8.
Proof.
  destruct scenario_run as (out & Hrun & _ & _ & _ & _ & Hrec).
  destruct (run_recommended_entry scenario out _ Hrun Hrec)
    as (w & item & _ & _ & _ & _ & _ & _ & Ht).
  eexists out, _. split; [exact Hrun |]. split; [exact Ht |].
  apply (refuel_time_bounds scenario out _ _ Hrun Hrec Ht).
Defined.



(** The power the page prints beside the recommendation,
    [best_model_avg_power], is the average power of the recommended model's
    entry, which is positive and at least the required load; without a
    recommendation the variable keeps its initial 0. *)
Theorem best_model_avg_power_spec (inp : Inputs) (out : Outputs) :
  run inp = Ret out ->
  (forall m, recommended_model (selection out) = Some m ->
             exists d, In d (all_models_data (selection out))
                       /\ model d = m
                       /\ best_model_avg_power (selection out) = avg_power d
                       /\ 0 < best_model_avg_power (selection out)
                       /\ required_power_with_margin out
                          <= best_model_avg_power (selection out))
  /\ (recommended_model (selection out) = None ->
      best_model_avg_power (selection out) = 0).
Proof.
  intros Hrun. destruct (run_selection inp out Hrun) as [_ Hinv].
  unfold selection_inv in Hinv. split.
  - intros m Hrec. rewrite Hrec in Hinv.
    destruct Hinv as (l1 & d & l2 & Hall & Hm & Hb & Hpos & Hq & _).
    exists d. rewrite Hall at 1. split; [apply in_elt |].
    rewrite <- Hb. auto.
  - intros Hrec. rewrite Hrec in Hinv. tauto.
Qed.

Lemma best_model_avg_power_spec_witness :
  exists out,
    run scenario = Ret out
    /\ 0 < best_model_avg_power (selection out).
Proof.
  destruct scenario_run as (out & Hrun & _ & _ & _ & _ & Hrec).
  exists out. split; [exact Hrun |].
  destruct (best_model_avg_power_spec scenario out Hrun) as [Hsome _].
  destruct (Hsome _ Hrec) as (d & _ & _ & _ & Hpos & _). exact Hpos.
Defined.

Lemma calculate_heat_loss_failure_modes_witness :
  calculate_heat_loss (-1) 2.5 1 2.5 3.5 22 (-20) = Raise ValueError
  /\ calculate_heat_loss 100 2.5 0 2.5 3.5 22 (-20) = Raise ZeroDivisionError
  /\ calculate_heat_loss (-1) 2.5 0 2.5 3.5 10 10 = Ret 0.
Proof.
  split; [| split].
  - destruct (calculate_heat_loss_failure_modes (-1) 2.5 1 2.5 3.5 22 (-20))
      as (_ & H & _).
    apply H; lra.
  - destruct (calculate_heat_loss_failure_modes 100 2.5 0 2.5 3.5 22 (-20))
      as (_ & _ & H & _).
    apply H; [lra | lra | left; reflexivity].
  - destruct (calculate_heat_loss_failure_modes (-1) 2.5 0 2.5 3.5 10 10)
      as (H & _).
    apply H; lra.
Defined.

(** ** Changing the burn duration *)

Lemma unit_power_antitone_duration (inp : Inputs) (w : Wood) (bh' : R) :
  lookup WOOD_TYPES (wood_type inp) = Some w ->
  0 < fill_fraction inp -> 0 < efficiency inp ->
  0 < bh' -> bh' <= burn_hours inp ->
  unit_power inp w <= unit_power (with_burn_hours inp bh') w.
Proof.
  intros Hw Hf He Hbh' Hle. apply WOOD_TYPES_positive in Hw. destruct Hw as [Hd Hq].
  unfold unit_power, with_burn_hours. cbn [fill_fraction efficiency burn_hours].
  apply Rmult_le_compat_l.
  - apply Rmult_le_pos; [| lra]. apply Rle_mult_inv_pos; [| lra].
    repeat apply Rmult_le_pos; lra.
  - apply Rinv_le_contravar; assumption.
Qed.

(** The burn duration does not enter the heat loss, and a shorter burn
    only raises the average powers: with every other widget value kept, a
    run on a shorter (positive) burn duration has the same heat loss and
    required load, and keeps the recommendation of the longer one. *)
Theorem recommendation_kept_for_shorter_burn
    (inp : Inputs) (out out' : Outputs) (w : Wood) (bh' : R) (m : string) :
  run inp = Ret out ->
  run (with_burn_hours inp bh') = Ret out' ->
  lookup WOOD_TYPES (wood_type inp) = Some w ->
  0 < fill_fraction inp -> 0 < efficiency inp ->
  0 < bh' -> bh' <= burn_hours inp ->
  heat_loss_kw out' = heat_loss_kw out
  /\ required_power_with_margin out' = required_power_with_margin out
  /\ (recommended_model (selection out) = Some m ->
      recommended_model (selection out') = Some m).
Proof.
  intros Hrun Hrun' Hw Hf He Hbh' Hle.
  assert (Hbh : 0 < burn_hours inp) by lra.
  destruct (run_Ret_inv inp out Hrun) as (Hwr & Hhl & Hreq & _).
  destruct (run_Ret_inv _ out' Hrun') as (Hwr' & Hhl' & Hreq' & _).
  unfold with_burn_hours in Hwr', Hhl'.
  cbn [area height material_type thickness_cm t_in t_out] in Hwr', Hhl'.
  rewrite Hwr in Hwr'. inversion Hwr' as [Hwall]. rewrite <- Hwall in Hhl'.
  rewrite Hhl in Hhl'. inversion Hhl' as [Hloss].
  assert (Hreq_eq : required_power_with_margin out' = required_power_with_margin out)
    by (rewrite Hreq, Hreq', Hloss; reflexivity).
  split; [reflexivity |]. split; [exact Hreq_eq |].
  intros Hrec.
  destruct (run_recommended_largest inp out w Hrun Hw Hf He Hbh) as [Hyes Hno].
  destruct (run_recommended_largest (with_burn_hours inp bh') out' w Hrun' Hw Hf He Hbh')
    as [Hyes' _].
  pose proof (unit_power_antitone_duration inp w bh' Hw Hf He Hbh' Hle) as Hmono.
  destruct (Rle_dec (required_power_with_margin out) (467 * unit_power inp w))
    as [Hq | Hq].
  - rewrite (Hyes Hq) in Hrec. inversion Hrec. subst m.
    apply Hyes'. rewrite Hreq_eq. lra.
  - apply Rnot_le_lt in Hq. rewrite (Hno Hq) in Hrec. discriminate.
Qed.

Lemma recommendation_kept_for_shorter_burn_witness :
  exists out out',
    run scenario = Ret out
    /\ run (with_burn_hours scenario 4) = Ret out'
    /\ recommended_model (selection out') = Some "Муссон 2000".
Proof.
  destruct scenario_run as (out & Hrun & _ & _ & _ & _ & Hrec).
  destruct (run_total (with_burn_hours scenario 4) (mkWood 350 17.0)) as [out' Hrun'];
    [reflexivity | cbn; lra | right; cbn; lra |].
  exists out, out'. split; [exact Hrun |]. split; [exact Hrun' |].
  apply (recommendation_kept_for_shorter_burn scenario out out' (mkWood 350 17.0) 4
           "Муссон 2000" Hrun Hrun');
    [reflexivity | cbn; lra | cbn; lra | lra | cbn; lra | exact Hrec].
Defined.
